(** * smolmodels: training-code generation (training.py)

    A shallow embedding of [TrainingCodeGenerator] from
    [smolmodels/internal/models/generation/training.py] together with the
    library functions it calls ([json.loads], pydantic's model validation,
    [string.Template.safe_substitute], [str]/[repr]) and the properties the
    specification states about it.

    Python [str] values are modelled as [string] (a sequence of bytes, the
    UTF-8 encoding of the text).  Interpreter resource limits (recursion
    depth, integer digit limits, memory) are not part of the model. *)

From Stdlib Require Import String Ascii NArith Lia.
From stdpp Require Import base gmap strings list.

Local Open Scope string_scope.
Local Open Scope list_scope.

(* ===================================================================== *)
(** * Part I: definitions *)
(* ===================================================================== *)

(** ** Characters *)

Module Chars.

Definition DQUOTE : ascii := "034"%char.
Definition SQUOTE : ascii := "039"%char.
Definition BACKSLASH : ascii := "092"%char.
Definition BACKTICK : ascii := "096"%char.
Definition LF : ascii := "010"%char.
Definition CR : ascii := "013"%char.
Definition TAB : ascii := "009"%char.
Definition DOLLAR : ascii := "036"%char.

Definition str1 (c : ascii) : string := String c EmptyString.

Definition in_range (lo hi : nat) (c : ascii) : bool :=
  (lo <=? nat_of_ascii c)%nat && (nat_of_ascii c <=? hi)%nat.

Definition is_digit (c : ascii) : bool := in_range 48 57 c.
Definition is_lower (c : ascii) : bool := in_range 97 122 c.
Definition is_upper (c : ascii) : bool := in_range 65 90 c.

(** ASCII white space: space, TAB, LF, VT, FF, CR. *)
Definition is_space (c : ascii) : bool :=
  Ascii.eqb c " " || Ascii.eqb c TAB || Ascii.eqb c LF
  || Ascii.eqb c "011" || Ascii.eqb c "012" || Ascii.eqb c CR.

Definition is_empty (s : string) : bool :=
  match s with EmptyString => true | String _ _ => false end.

End Chars.
Import Chars.

(** ** The code extractor *)

Module Extractor.

(** Modelled from the spec: what the extractor returns when the text
    holds no delimited block.  The specification names two admissible
    policies and requires the implementer to fix one. *)
Inductive MissPolicy : Type :=
| ReturnTrimmedInput   (* return the trimmed input verbatim *)
| ReturnEmpty.         (* return the empty string *)

(** [starts_fence s] is the text after a fence marker (three backticks)
    at the very start of [s]. *)
Definition starts_fence (s : string) : option string :=
  match s with
  | String a (String b (String c rest)) =>
      if Ascii.eqb a BACKTICK && Ascii.eqb b BACKTICK && Ascii.eqb c BACKTICK
      then Some rest else None
  | _ => None
  end.

(** [split_fence s] splits [s] at its first fence marker into the text
    before the marker and the text after it. *)
Fixpoint split_fence (s : string) : option (string * string) :=
  match starts_fence s with
  | Some rest => Some (EmptyString, rest)
  | None =>
      match s with
      | EmptyString => None
      | String c s' =>
          match split_fence s' with
          | Some (before, after) => Some (String c before, after)
          | None => None
          end
      end
  end.

(** The first delimited block: the text between the first fence marker
    and the next one after it. *)
Definition find_block (text : string) : option string :=
  match split_fence text with
  | Some (_, rest) =>
      match split_fence rest with
      | Some (body, _) => Some body
      | None => None
      end
  | None => None
  end.

(** The text after the first line feed of [s], if [s] has one. *)
Fixpoint after_newline (s : string) : option string :=
  match s with
  | EmptyString => None
  | String c s' => if Ascii.eqb c LF then Some s' else after_newline s'
  end.

(** Modelled from the spec: the language tag is taken to be the
    remainder of the opening fence's line. *)
Definition strip_language_tag (body : string) : string :=
  match after_newline body with
  | Some rest => rest
  | None => body
  end.

Fixpoint lstrip (s : string) : string :=
  match s with
  | EmptyString => EmptyString
  | String c s' => if is_space c then lstrip s' else s
  end.

Fixpoint rstrip (s : string) : string :=
  match s with
  | EmptyString => EmptyString
  | String c s' =>
      match rstrip s' with
      | EmptyString => if is_space c then EmptyString else str1 c
      | String d r => String c (String d r)
      end
  end.

Definition strip (s : string) : string := lstrip (rstrip s).

Definition on_miss (policy : MissPolicy) (text : string) : string :=
  match policy with
  | ReturnTrimmedInput => strip text
  | ReturnEmpty => EmptyString
  end.

(** Modelled from the spec: [extract_code] of
    [smolmodels.internal.common.utils.response] is imported by
    training.py but is not among the sources.  Following section 4.2 of
    the specification, [extract] returns the content of the first
    delimited code block of [text] with the fence markers and the
    language tag stripped (and the content trimmed); when no delimited
    block is found the result is fixed by the miss policy. *)
Definition extract (policy : MissPolicy) (text : string) : string :=
  match find_block text with
  | Some body => strip (strip_language_tag body)
  | None => on_miss policy text
  end.

End Extractor.

(** ** Exceptions *)

(** What a field of a pydantic model can be rejected for. *)
Inductive FieldError : Type :=
| missing        (* the field is absent *)
| string_type.   (* the value is not a string *)

(** The exceptions that can leave the methods of [TrainingCodeGenerator].
    [E] is the type of the exceptions raised by the provider, which are
    propagated as they are. *)
Inductive PyError (E : Type) : Type :=
| ProviderError (e : E)
| JSONDecodeError
| RecursionError
| TypeError
| ValidationError (errors : list (string * FieldError))
| NotImplementedError (msg : string).

Arguments ProviderError {E} e.
Arguments JSONDecodeError {E}.
Arguments RecursionError {E}.
Arguments TypeError {E}.
Arguments ValidationError {E} errors.
Arguments NotImplementedError {E} msg.

(** ** [json.loads] *)

Module Json.

(** A decoded JSON document.  Numbers keep their lexeme; the members of
    an object are listed in document order, duplicates included. *)
#[warnings="-register-all"] Inductive JSON : Type :=
| JNull
| JBool (b : bool)
| JNumber (lexeme : string)
| JString (s : string)
| JArray (items : list JSON)
| JObject (members : list (string * JSON)).

(** Outcome of a scanner: a value and the unread text, a syntax error, or
    recursion budget exhausted. *)
Inductive Scan (A : Type) : Type :=
| Ok (a : A) (rest : string)
| Bad
| Deep.
Arguments Ok {A} a rest.
Arguments Bad {A}.
Arguments Deep {A}.

Definition is_ws (c : ascii) : bool :=
  Ascii.eqb c " " || Ascii.eqb c TAB || Ascii.eqb c LF || Ascii.eqb c CR.

Fixpoint skip_ws (s : string) : string :=
  match s with
  | EmptyString => EmptyString
  | String c s' => if is_ws c then skip_ws s' else s
  end.

Fixpoint strip_prefix (p s : string) : option string :=
  match p with
  | EmptyString => Some s
  | String a p' =>
      match s with
      | EmptyString => None
      | String b s' => if Ascii.eqb a b then strip_prefix p' s' else None
      end
  end.

(** *** String literals *)

Definition hex_val (c : ascii) : option N :=
  let n := N_of_ascii c in
  if is_digit c then Some (n - 48)%N
  else if in_range 97 102 c then Some (n - 87)%N
  else if in_range 65 70 c then Some (n - 55)%N
  else None.

Definition hex4 (a b c d : ascii) : option N :=
  match hex_val a, hex_val b, hex_val c, hex_val d with
  | Some x, Some y, Some z, Some w => Some (((x * 16 + y) * 16 + z) * 16 + w)%N
  | _, _, _, _ => None
  end.

Definition is_high_surrogate (n : N) : bool := ((55296 <=? n) && (n <=? 56319))%N.
Definition is_low_surrogate (n : N) : bool := ((56320 <=? n) && (n <=? 57343))%N.
Definition join_surrogates (hi lo : N) : N :=
  (65536 + ((hi - 55296) * 1024 + (lo - 56320)))%N.

Definition byte (n : N) : string := str1 (ascii_of_N n).

(** UTF-8 encoding of a code point. *)
Definition utf8 (n : N) : string :=
  (if n <? 128 then byte n
   else if n <? 2048 then byte (192 + n / 64) +:+ byte (128 + n mod 64)
   else if n <? 65536 then
     byte (224 + n / 4096) +:+ byte (128 + (n / 64) mod 64) +:+ byte (128 + n mod 64)
   else
     byte (240 + n / 262144) +:+ byte (128 + (n / 4096) mod 64)
     +:+ byte (128 + (n / 64) mod 64) +:+ byte (128 + n mod 64))%N.

Definition simple_escape (e : ascii) : option ascii :=
  if Ascii.eqb e DQUOTE then Some DQUOTE
  else if Ascii.eqb e BACKSLASH then Some BACKSLASH
  else if Ascii.eqb e "/" then Some "/"%char
  else if Ascii.eqb e "b" then Some "008"%char
  else if Ascii.eqb e "f" then Some "012"%char
  else if Ascii.eqb e "n" then Some LF
  else if Ascii.eqb e "r" then Some CR
  else if Ascii.eqb e "t" then Some TAB
  else None.

Definition push (chunk : string) (r : Scan string) : Scan string :=
  match r with
  | Ok s rest => Ok (chunk +:+ s) rest
  | Bad => Bad
  | Deep => Deep
  end.

(** [scanstring s] reads a string literal whose opening quote has been
    consumed (strict mode: raw control characters are rejected). *)
Fixpoint scanstring (s : string) : Scan string :=
  match s with
  | EmptyString => Bad
  | String c s' =>
      if Ascii.eqb c DQUOTE then Ok EmptyString s'
      else if Ascii.eqb c BACKSLASH then
        match s' with
        | EmptyString => Bad
        | String e s'' =>
            if Ascii.eqb e "u" then
              match s'' with
              | String h1 (String h2 (String h3 (String h4 r))) =>
                  match hex4 h1 h2 h3 h4 with
                  | None => Bad
                  | Some hi =>
                      match r with
                      | String b (String u (String l1 (String l2 (String l3 (String l4 r'))))) =>
                          if is_high_surrogate hi && Ascii.eqb b BACKSLASH && Ascii.eqb u "u"
                          then
                            match hex4 l1 l2 l3 l4 with
                            | None => Bad
                            | Some lo =>
                                if is_low_surrogate lo
                                then push (utf8 (join_surrogates hi lo)) (scanstring r')
                                else push (utf8 hi) (scanstring r)
                            end
                          else push (utf8 hi) (scanstring r)
                      | _ => push (utf8 hi) (scanstring r)
                      end
                  end
              | _ => Bad
              end
            else
              match simple_escape e with
              | Some ch => push (str1 ch) (scanstring s'')
              | None => Bad
              end
        end
      else if (nat_of_ascii c <? 32)%nat then Bad
      else push (str1 c) (scanstring s')
  end.

(** *** Numbers

    An optional minus sign and an integer part (a single 0, or a nonzero
    digit followed by digits), then optionally a fraction (a dot and at
    least one digit), then optionally an exponent (e or E, an optional
    sign, at least one digit).  As with the regular expression of the
    decoder, an incomplete fraction or exponent is left unread. *)

Fixpoint span_digits (s : string) : string * string :=
  match s with
  | EmptyString => (EmptyString, EmptyString)
  | String c s' =>
      if is_digit c
      then let (ds, r) := span_digits s' in (String c ds, r)
      else (EmptyString, s)
  end.

Definition match_sign (signs : ascii -> bool) (s : string) : string * string :=
  match s with
  | String c s' => if signs c then (str1 c, s') else (EmptyString, s)
  | EmptyString => (EmptyString, s)
  end.

Definition match_int (s : string) : option (string * string) :=
  let (sign, s1) := match_sign (Ascii.eqb "-") s in
  match s1 with
  | EmptyString => None
  | String d s2 =>
      if Ascii.eqb d "0" then Some (sign +:+ "0", s2)
      else if is_digit d
      then let (ds, r) := span_digits s2 in Some (sign +:+ String d ds, r)
      else None
  end.

Definition match_frac (s : string) : string * string :=
  match s with
  | String c s' =>
      if Ascii.eqb c "."
      then match span_digits s' with
           | (EmptyString, _) => (EmptyString, s)
           | (ds, r) => (String c ds, r)
           end
      else (EmptyString, s)
  | EmptyString => (EmptyString, s)
  end.

Definition match_exp (s : string) : string * string :=
  match s with
  | String e s' =>
      if Ascii.eqb e "e" || Ascii.eqb e "E"
      then
        let (sign, s2) := match_sign (fun c => Ascii.eqb c "-" || Ascii.eqb c "+") s' in
        match span_digits s2 with
        | (EmptyString, _) => (EmptyString, s)
        | (ds, r) => (String e (sign +:+ ds), r)
        end
      else (EmptyString, s)
  | EmptyString => (EmptyString, s)
  end.

Definition match_number (s : string) : option (string * string) :=
  match match_int s with
  | None => None
  | Some (i, r1) =>
      let (f, r2) := match_frac r1 in
      let (e, r3) := match_exp r2 in
      Some (i +:+ f +:+ e, r3)
  end.

(** The values that are neither strings nor containers, tried in the
    order of the scanner. *)
Definition scan_atom (s : string) : Scan JSON :=
  match strip_prefix "null" s with
  | Some r => Ok JNull r
  | None =>
  match strip_prefix "true" s with
  | Some r => Ok (JBool true) r
  | None =>
  match strip_prefix "false" s with
  | Some r => Ok (JBool false) r
  | None =>
  match match_number s with
  | Some (lexeme, r) => Ok (JNumber lexeme) r
  | None =>
  match strip_prefix "NaN" s with
  | Some r => Ok (JNumber "NaN") r
  | None =>
  match strip_prefix "Infinity" s with
  | Some r => Ok (JNumber "Infinity") r
  | None =>
  match strip_prefix "-Infinity" s with
  | Some r => Ok (JNumber "-Infinity") r
  | None => Bad
  end end end end end end end.

(** *** Values

    [scan_once] reads one value at the start of [s]; [object_members]
    runs the loop of [JSONObject] from just behind the opening quote of a
    key, [array_items] the loop of [JSONArray] from the start of an
    item.  [fuel] bounds the depth of the calls. *)
Fixpoint scan_once (fuel : nat) (s : string) : Scan JSON :=
  match fuel with
  | O => Deep
  | S fuel' =>
      match s with
      | EmptyString => Bad
      | String c s' =>
          if Ascii.eqb c DQUOTE then
            match scanstring s' with
            | Ok str r => Ok (JString str) r
            | Bad => Bad
            | Deep => Deep
            end
          else if Ascii.eqb c "{" then
            match skip_ws s' with
            | EmptyString => Bad
            | String d s2 =>
                if Ascii.eqb d "}" then Ok (JObject []) s2
                else if Ascii.eqb d DQUOTE then object_members fuel' s2 []
                else Bad
            end
          else if Ascii.eqb c "[" then
            match skip_ws s' with
            | EmptyString => Bad
            | String d s2 =>
                if Ascii.eqb d "]" then Ok (JArray []) s2
                else array_items fuel' (String d s2) []
            end
          else scan_atom s
      end
  end

with object_members (fuel : nat) (s : string) (acc : list (string * JSON)) : Scan JSON :=
  match fuel with
  | O => Deep
  | S fuel' =>
      match scanstring s with
      | Ok key r =>
          match skip_ws r with
          | EmptyString => Bad
          | String c r1 =>
              if Ascii.eqb c ":" then
                match scan_once fuel' (skip_ws r1) with
                | Ok v r2 =>
                    match skip_ws r2 with
                    | EmptyString => Bad
                    | String d r3 =>
                        if Ascii.eqb d "}" then Ok (JObject (acc ++ [(key, v)])) r3
                        else if Ascii.eqb d "," then
                          match skip_ws r3 with
                          | EmptyString => Bad
                          | String q r4 =>
                              if Ascii.eqb q DQUOTE
                              then object_members fuel' r4 (acc ++ [(key, v)])
                              else Bad
                          end
                        else Bad
                    end
                | Bad => Bad
                | Deep => Deep
                end
              else Bad
          end
      | Bad => Bad
      | Deep => Deep
      end
  end

with array_items (fuel : nat) (s : string) (acc : list JSON) : Scan JSON :=
  match fuel with
  | O => Deep
  | S fuel' =>
      match scan_once fuel' s with
      | Ok v r =>
          match skip_ws r with
          | EmptyString => Bad
          | String d r1 =>
              if Ascii.eqb d "]" then Ok (JArray (acc ++ [v])) r1
              else if Ascii.eqb d "," then array_items fuel' (skip_ws r1) (acc ++ [v])
              else Bad
          end
      | Bad => Bad
      | Deep => Deep
      end
  end.

(** A scanner outcome is well behaved on [s] when it is not a budget
    failure and, on success, the unread text is shorter than [s]. *)
Definition shrinks {A : Type} (s : string) (x : Scan A) : Prop :=
  match x with
  | Ok _ r => String.length r < String.length s
  | Bad => True
  | Deep => False
  end.

(** [json.loads]: one value, surrounded by optional white space.  The
    loops and [scan_once] call each other at most twice per character
    read, so the budget below is never exhausted (see
    [json_loads_recursion_free]). *)
Definition loads {E : Type} (s : string) : PyError E + JSON :=
  match scan_once (2 * String.length s + 1) (skip_ws s) with
  | Ok v r => if is_empty (skip_ws r) then inr v else inl JSONDecodeError
  | Bad => inl JSONDecodeError
  | Deep => inl RecursionError
  end.

End Json.

(** ** Python values and their rendering *)

Module Py.

(** The values handed to the prompt templates. *)
#[warnings="-register-all"] Inductive PyValue : Type :=
| PyNone
| PyStr (s : string)
| PyList (items : list PyValue)
| PyDict (items : list (string * PyValue)).

Fixpoint contains (c : ascii) (s : string) : bool :=
  match s with
  | EmptyString => false
  | String d s' => Ascii.eqb c d || contains c s'
  end.

Fixpoint join (sep : string) (parts : list string) : string :=
  match parts with
  | [] => EmptyString
  | [p] => p
  | p :: rest => p +:+ sep +:+ join sep rest
  end.

Definition hex_digit (n : nat) : ascii :=
  if (n <? 10)%nat then ascii_of_nat (48 + n) else ascii_of_nat (87 + n).

(** [repr] of a string prefers single quotes and switches to double
    quotes when the text holds a single quote and no double quote. *)
Definition repr_quote (s : string) : ascii :=
  if contains SQUOTE s && negb (contains DQUOTE s) then DQUOTE else SQUOTE.

(** Bytes above 127 belong to the encoding of a non-ASCII character and
    are copied, as [repr] does for printable characters. *)
Definition repr_char (quote c : ascii) : string :=
  let n := nat_of_ascii c in
  if Ascii.eqb c quote || Ascii.eqb c BACKSLASH then String BACKSLASH (str1 c)
  else if Ascii.eqb c TAB then "\t"
  else if Ascii.eqb c LF then "\n"
  else if Ascii.eqb c CR then "\r"
  else if (n <? 32)%nat || (n =? 127)%nat
  then "\x" +:+ str1 (hex_digit (n / 16)) +:+ str1 (hex_digit (n mod 16))
  else str1 c.

Fixpoint repr_body (quote : ascii) (s : string) : string :=
  match s with
  | EmptyString => EmptyString
  | String c s' => repr_char quote c +:+ repr_body quote s'
  end.

Definition repr_str (s : string) : string :=
  let quote := repr_quote s in
  String quote (repr_body quote s +:+ str1 quote).

Fixpoint repr (v : PyValue) : string :=
  match v with
  | PyNone => "None"
  | PyStr s => repr_str s
  | PyList items => "[" +:+ join ", " (map repr items) +:+ "]"
  | PyDict items =>
      "{" +:+ join ", " (map (fun kv : string * PyValue =>
                                let (k, x) := kv in
                                repr_str k +:+ ": " +:+ repr x) items)
      +:+ "}"
  end.

(** [str(v)]: a string is itself, everything else is its [repr]. *)
Definition str (v : PyValue) : string :=
  match v with
  | PyStr s => s
  | _ => repr v
  end.

(** An optional string argument whose default is [None]. *)
Definition optional (o : option string) : PyValue :=
  match o with
  | Some s => PyStr s
  | None => PyNone
  end.

Definition str_list (l : list string) : PyValue := PyList (map PyStr l).

End Py.
Import Py.

(** ** [string.Template.safe_substitute] *)

Module Template.

Definition is_id_start (c : ascii) : bool :=
  Ascii.eqb c "_" || is_lower c || is_upper c.

Definition is_id_char (c : ascii) : bool := is_id_start c || is_digit c.

(** Where the scan stands: in plain text, behind a delimiter, inside
    the identifier of [$name], behind [${], or inside the identifier of
    [${name}]. *)
Inductive State : Type :=
| Plain
| Delim
| Named (id : string)
| OpenBrace
| Braced (id : string).

(** A placeholder that the mapping does not resolve is left as written. *)
Definition named (mapping : gmap string PyValue) (id : string) : string :=
  match mapping !! id with
  | Some v => str v
  | None => String DOLLAR id
  end.

Definition braced (mapping : gmap string PyValue) (id : string) : string :=
  match mapping !! id with
  | Some v => str v
  | None => "${" +:+ id +:+ "}"
  end.

(** Text owed when the template ends in state [st]. *)
Definition flush (mapping : gmap string PyValue) (st : State) : string :=
  match st with
  | Plain => EmptyString
  | Delim => "$"
  | Named id => named mapping id
  | OpenBrace => "${"
  | Braced id => "${" +:+ id
  end.

Fixpoint scan (mapping : gmap string PyValue) (st : State) (s : string) : string :=
  match s with
  | EmptyString => flush mapping st
  | String c s' =>
      (* [c] read as plain text *)
      let plain :=
        if Ascii.eqb c DOLLAR then scan mapping Delim s'
        else String c (scan mapping Plain s') in
      match st with
      | Plain => plain
      | Delim =>
          if Ascii.eqb c DOLLAR then String DOLLAR (scan mapping Plain s')
          else if is_id_start c then scan mapping (Named (str1 c)) s'
          else if Ascii.eqb c "{" then scan mapping OpenBrace s'
          else "$" +:+ plain
      | Named id =>
          if is_id_char c then scan mapping (Named (id +:+ str1 c)) s'
          else named mapping id +:+ plain
      | OpenBrace =>
          if is_id_start c then scan mapping (Braced (str1 c)) s'
          else "${" +:+ plain
      | Braced id =>
          if is_id_char c then scan mapping (Braced (id +:+ str1 c)) s'
          else if Ascii.eqb c "}" then braced mapping id +:+ scan mapping Plain s'
          else "${" +:+ id +:+ plain
      end
  end.

(** [safe_substitute] with the keyword arguments [mapping]: [$$] becomes [$], [$name] and
    [${name}] become [str(mapping[name])] when [name] is a key and stay
    as they are otherwise, any other [$] stays. *)
Definition safe_substitute (template : string) (mapping : gmap string PyValue) : string :=
  scan mapping Plain template.

(** Two mappings render alike when they have the same keys and the
    values of each key have the same [str]. *)
Definition same_rendering (m1 m2 : gmap string PyValue) : Prop :=
  forall k, Py.str <$> (m1 !! k) = Py.str <$> (m2 !! k).

End Template.
Import Template.

(** ** The structured response of [fix_training_code] *)

Module FixResponse.
Import Json.

(** [class FixResponse(BaseModel)]: two required string fields.
    Validation follows pydantic 2: a field takes a JSON string only,
    and the model has the default configuration. *)
Record t : Type := { plan : string; code : string }.

(** Unpacking the decoded response with [**]: only a JSON object unpacks into keyword
    arguments; of members with the same name the last one stays. *)
Definition dict (members : list (string * JSON)) : gmap string JSON :=
  foldl (fun (m : gmap string JSON) (kv : string * JSON) => <[kv.1 := kv.2]> m)
        ∅ members.

Definition kwargs {E : Type} (v : JSON) : PyError E + gmap string JSON :=
  match v with
  | JObject members => inr (dict members)
  | _ => inl TypeError
  end.

Definition field (data : gmap string JSON) (name : string) : FieldError + string :=
  match data !! name with
  | None => inl missing
  | Some (JString s) => inr s
  | Some _ => inl string_type
  end.

Definition field_errors (name : string) (r : FieldError + string)
  : list (string * FieldError) :=
  match r with
  | inl e => [(name, e)]
  | inr _ => []
  end.

(** The constructor of [FixResponse] applied to the keyword arguments
    [data]: every field is validated and all failures are
    reported together; keys that are not fields are ignored. *)
Definition validate {E : Type} (data : gmap string JSON) : PyError E + t :=
  match field data "plan", field data "code" with
  | inr p, inr c => inr {| plan := p; code := c |}
  | rp, rc => inl (ValidationError (field_errors "plan" rp ++ field_errors "code" rc))
  end.

End FixResponse.

(** ** Configuration and provider interface *)

(** [config.code_generation]: the four prompt templates and the packages
    the generated code may use. *)
Record CodeGeneration : Type := {
  prompt_training_base : string;
  prompt_training_generate : string;
  prompt_training_fix : string;
  prompt_training_review : string;
  allowed_packages : list string
}.

(** [config.execution] *)
Record Execution : Type := { training_data_path : string }.

Record Config : Type := {
  code_generation : CodeGeneration;
  execution : Execution
}.

(** The schema a structured query is constrained to. *)
Inductive ResponseFormat : Type := FixResponseSchema.

(** The arguments of one [Provider.query] call. *)
Record Query : Type := {
  system_message : string;
  user_message : string;
  response_format : option ResponseFormat
}.

(** The calls a method makes to its collaborators, in order. *)
Inductive Event : Type :=
| ProviderQuery (q : Query)
| ExtractCode (text : string).

Definition provider_calls (tr : list Event) : list Query :=
  omap (fun ev => match ev with ProviderQuery q => Some q | _ => None end) tr.

Definition extractor_calls (tr : list Event) : list string :=
  omap (fun ev => match ev with ExtractCode text => Some text | _ => None end) tr.

(** [List[Dict[str, str]]] *)
Definition History : Type := list (list (string * string)).

Definition py_history (h : History) : PyValue :=
  PyList (map (fun msg : list (string * string) =>
                 PyDict (map (fun kv : string * string => (kv.1, PyStr kv.2)) msg)) h).

(** ** [TrainingCodeGenerator] *)

Section Generator.

(** The provider is an external collaborator: [query] answers a call
    from the provider's current state with the returned text or with
    the exception it raises, and leaves the provider in a new state. *)
Context {PState E : Type}.
Variable query : PState -> Query -> (E + string) * PState.

(** [extract_code], imported from the response utilities. *)
Variable extract_code : string -> string.

Variable config : Config.

(** The object: its two fields, and the record of the calls made to the
    collaborators so far. *)
Record TrainingCodeGenerator : Type := {
  provider : PState;
  history : History;
  trace : list Event
}.

(** [__init__] *)
Definition init (p : PState) : TrainingCodeGenerator :=
  {| provider := p; history := []; trace := [] |}.

(** A method either returns a value or raises, and leaves the object in
    a new state. *)
Definition Method (A : Type) : Type :=
  TrainingCodeGenerator -> (PyError E + A) * TrainingCodeGenerator.

Definition ret {A : Type} (a : A) : Method A := fun self => (inr a, self).

Definition raise {A : Type} (e : PyError E) : Method A := fun self => (inl e, self).

Definition bind {A B : Type} (m : Method A) (k : A -> Method B) : Method B :=
  fun self =>
    match m self with
    | (inr a, self') => k a self'
    | (inl e, self') => (inl e, self')
    end.

Definition lift {A : Type} (r : PyError E + A) : Method A := fun self => (r, self).

Notation "'let*' x ':=' m 'in' k" := (bind m (fun x => k))
  (at level 10, x name, m at level 100, k at level 200).

Definition log (ev : Event) (self : TrainingCodeGenerator) : TrainingCodeGenerator :=
  {| provider := provider self; history := history self; trace := trace self ++ [ev] |}.

(** [self.history] *)
Definition self_history : Method History := fun self => (inr (history self), self).

(** [self.provider.query(...)] *)
Definition self_provider_query (q : Query) : Method string :=
  fun self =>
    let (answer, p') := query (provider self) q in
    let self' := {| provider := p'; history := history self;
                    trace := trace self ++ [ProviderQuery q] |} in
    match answer with
    | inr text => (inr text, self')
    | inl e => (inl (ProviderError e), self')
    end.

(** [extract_code(text)] *)
Definition call_extract_code (text : string) : Method string :=
  fun self => (inr (extract_code text), log (ExtractCode text) self).

(** [prompt_training_base.safe_substitute()] *)
Definition base_prompt : string :=
  safe_substitute (prompt_training_base (code_generation config)) ∅.

(** A method that leaves the conversation history as it found it,
    whether it returns or raises. *)
Definition preserves_history {A : Type} (m : Method A) : Prop :=
  forall self, history (m self).2 = history self.

(** *** generate_training_code *)

Definition generate_mapping (h : History) (problem_statement plan : string)
  : gmap string PyValue :=
  {[ "problem_statement" := PyStr problem_statement;
     "plan" := PyStr plan;
     "history" := py_history h;
     "allowed_packages" := str_list (allowed_packages (code_generation config));
     "training_data_path" := PyStr (training_data_path (execution config)) ]}.

Definition generate_query (h : History) (problem_statement plan : string) : Query :=
  {| system_message := base_prompt;
     user_message :=
       safe_substitute (prompt_training_generate (code_generation config))
                       (generate_mapping h problem_statement plan);
     response_format := None |}.

Definition generate_training_code (problem_statement plan : string) : Method string :=
  let* h := self_history in
  let* text := self_provider_query (generate_query h problem_statement plan) in
  call_extract_code text.

(** *** fix_training_code *)

Definition fix_mapping (training_code plan review : string) (problems : option string)
  : gmap string PyValue :=
  {[ "plan" := PyStr plan;
     "training_code" := PyStr training_code;
     "review" := PyStr review;
     "problems" := optional problems;
     "training_data_path" := PyStr (training_data_path (execution config));
     "allowed_packages" := str_list (allowed_packages (code_generation config)) ]}.

Definition fix_query (training_code plan review : string) (problems : option string)
  : Query :=
  {| system_message := base_prompt;
     user_message :=
       safe_substitute (prompt_training_fix (code_generation config))
                       (fix_mapping training_code plan review problems);
     response_format := Some FixResponseSchema |}.

Definition fix_training_code (training_code plan review : string)
           (problems : option string) : Method string :=
  let* text := self_provider_query (fix_query training_code plan review problems) in
  let* decoded := lift (Json.loads text) in
  let* data := lift (FixResponse.kwargs decoded) in
  let* response := lift (FixResponse.validate data) in
  call_extract_code (FixResponse.code response).

(** *** review_training_code *)

Definition review_mapping (h : History) (training_code problem_statement plan : string)
           (problems : option string) : gmap string PyValue :=
  {[ "problem_statement" := PyStr problem_statement;
     "plan" := PyStr plan;
     "training_code" := PyStr training_code;
     "problems" := optional problems;
     "history" := py_history h;
     "allowed_packages" := str_list (allowed_packages (code_generation config)) ]}.

Definition review_query (h : History) (training_code problem_statement plan : string)
           (problems : option string) : Query :=
  {| system_message := base_prompt;
     user_message :=
       safe_substitute (prompt_training_review (code_generation config))
                       (review_mapping h training_code problem_statement plan problems);
     response_format := None |}.

Definition review_training_code (training_code problem_statement plan : string)
           (problems : option string) : Method string :=
  let* h := self_history in
  self_provider_query (review_query h training_code problem_statement plan problems).

(** *** The test-oriented operations *)

Definition generate_training_tests (problem_statement plan training_code : string)
  : Method string :=
  raise (NotImplementedError "Generation of the training tests is not yet implemented.").

Definition fix_training_tests (training_tests training_code review : string)
           (problems : option string) : Method string :=
  raise (NotImplementedError "Fixing of the training tests is not yet implemented.").

Definition review_training_tests
           (training_tests training_code problem_statement plan : string)
  : Method string :=
  raise (NotImplementedError "Review of the training tests is not yet implemented.").

End Generator.

Arguments provider {PState} _.
Arguments history {PState} _.
Arguments trace {PState} _.

(** The error kinds of the specification. *)

(** A structured response that is not parseable or does not match the
    schema. *)
Definition is_structured_response_error {E : Type} (e : PyError E) : bool :=
  match e with
  | JSONDecodeError | ValidationError _ => true
  | _ => false
  end.

Definition is_provider_error {E : Type} (e : PyError E) : bool :=
  match e with
  | ProviderError _ => true
  | _ => false
  end.

Definition is_not_implemented {E : Type} (e : PyError E) : bool :=
  match e with
  | NotImplementedError _ => true
  | _ => false
  end.

(** ** A scripted provider and sample data *)

Module Sample.

(** A provider that answers from a script: each call consumes the next
    entry; it raises once the script is used up. *)
Definition scripted (script : list string) (q : Query) : (unit + string) * list string :=
  match script with
  | answer :: rest => (inr answer, rest)
  | [] => (inl tt, [])
  end.

Definition config : Config :=
  {| code_generation :=
       {| prompt_training_base := "You write training code.";
          prompt_training_generate :=
            "Problem: $problem_statement Plan: ${plan} History: $history "
            +:+ "Packages: $allowed_packages Data: $training_data_path";
          prompt_training_fix :=
            "Plan: $plan Code: $training_code Review: $review "
            +:+ "Problems: $problems History: $history";
          prompt_training_review :=
            "Code: $training_code Problems: $problems History: $history";
          allowed_packages := ["numpy"; "pandas"] |};
     execution := {| training_data_path := "/data/train.csv" |} |}.

Definition quoted (s : string) : string := str1 DQUOTE +:+ s +:+ str1 DQUOTE.

(** The minimal valid structured response of the specification. *)
Definition minimal_response : string :=
  "{" +:+ quoted "plan" +:+ ": " +:+ quoted "p" +:+ ", "
  +:+ quoted "code" +:+ ": " +:+ quoted "```python\nx=1\n```" +:+ "}".

(** A response with a valid plan but no code. *)
Definition plan_only_response : string :=
  "{" +:+ quoted "plan" +:+ ": " +:+ quoted "p" +:+ "}".

(** A response with keys beyond the two fields. *)
Definition extra_keys_response : string :=
  "{" +:+ quoted "note" +:+ ": [1, 2], " +:+ quoted "plan" +:+ ": " +:+ quoted "p"
  +:+ ", " +:+ quoted "code" +:+ ": " +:+ quoted "```python\nx=1\n```"
  +:+ ", " +:+ quoted "score" +:+ ": 0.5}".

Definition fenced_code : string :=
  "```python" +:+ str1 LF +:+ "x=1" +:+ str1 LF +:+ "```".

Definition generator (script : list string) : TrainingCodeGenerator (PState := list string) :=
  {| provider := script;
     history := [[("role", "user"); ("content", "hello")]];
     trace := [] |}.

End Sample.

(** ** Sessions: the public methods called one after the other *)

(** One call of a public method of [TrainingCodeGenerator], with its
    arguments. *)
Inductive Call : Type :=
| GenerateTrainingCode (problem_statement plan : string)
| FixTrainingCode (training_code plan review : string) (problems : option string)
| ReviewTrainingCode (training_code problem_statement plan : string)
                     (problems : option string)
| GenerateTrainingTests (problem_statement plan training_code : string)
| FixTrainingTests (training_tests training_code review : string)
                   (problems : option string)
| ReviewTrainingTests (training_tests training_code problem_statement plan : string).

Section Session.

Context {PState E : Type}.
Variable query : PState -> Query -> (E + string) * PState.
Variable extract_code : string -> string.
Variable config : Config.

Definition invoke (c : Call) : Method (PState := PState) (E := E) string :=
  match c with
  | GenerateTrainingCode problem_statement plan =>
      generate_training_code query extract_code config problem_statement plan
  | FixTrainingCode training_code plan review problems =>
      fix_training_code query extract_code config training_code plan review problems
  | ReviewTrainingCode training_code problem_statement plan problems =>
      review_training_code query config training_code problem_statement plan problems
  | GenerateTrainingTests problem_statement plan training_code =>
      generate_training_tests problem_statement plan training_code
  | FixTrainingTests training_tests training_code review problems =>
      fix_training_tests training_tests training_code review problems
  | ReviewTrainingTests training_tests training_code problem_statement plan =>
      review_training_tests training_tests training_code problem_statement plan
  end.

(** A caller that makes the calls in order on the same object and
    collects what each returns or raises. *)
Fixpoint session (calls : list Call) (self : TrainingCodeGenerator)
  : list (PyError E + string) * TrainingCodeGenerator :=
  match calls with
  | [] => ([], self)
  | c :: rest =>
      let (outcome, self') := invoke c self in
      let (outcomes, self'') := session rest self' in
      (outcome :: outcomes, self'')
  end.

(** The provider query a call builds when the history is [h]; the
    test-oriented methods build none. *)
Definition query_of (h : History) (c : Call) : option Query :=
  match c with
  | GenerateTrainingCode problem_statement plan =>
      Some (generate_query config h problem_statement plan)
  | FixTrainingCode training_code plan review problems =>
      Some (fix_query config training_code plan review problems)
  | ReviewTrainingCode training_code problem_statement plan problems =>
      Some (review_query config h training_code problem_statement plan problems)
  | GenerateTrainingTests _ _ _
  | FixTrainingTests _ _ _ _
  | ReviewTrainingTests _ _ _ _ => None
  end.

End Session.

(** ** Shapes of decoded responses and of templates *)

Definition is_object (v : Json.JSON) : bool :=
  match v with
  | Json.JObject _ => true
  | _ => false
  end.

(** The fields of [FixResponse]. *)
Definition is_fix_field (name : string) : bool :=
  String.eqb name "plan" || String.eqb name "code".

Module TemplateMachine.

(** [has_escape s]: [s] holds two delimiters in a row. *)
Fixpoint has_escape (s : string) : bool :=
  match s with
  | EmptyString => false
  | String a s' =>
      match s' with
      | EmptyString => false
      | String b _ => (Ascii.eqb a DOLLAR && Ascii.eqb b DOLLAR) || has_escape s'
      end
  end.

Definition starts_with_delimiter (s : string) : bool :=
  match s with
  | String c _ => Ascii.eqb c DOLLAR
  | EmptyString => false
  end.

(** The part of the template read in state [st] whose rendering is
    still undecided. *)
Definition pending (st : State) : string :=
  match st with
  | Plain => EmptyString
  | Delim => "$"
  | Named id => String DOLLAR id
  | OpenBrace => "${"
  | Braced id => "${" +:+ id
  end.

(** The state of the scan after reading [c] in state [st]. *)
Definition next (st : State) (c : ascii) : State :=
  let plain := if Ascii.eqb c DOLLAR then Delim else Plain in
  match st with
  | Plain => plain
  | Delim =>
      if Ascii.eqb c DOLLAR then Plain
      else if is_id_start c then Named (str1 c)
      else if Ascii.eqb c "{" then OpenBrace
      else plain
  | Named id => if is_id_char c then Named (id +:+ str1 c) else plain
  | OpenBrace => if is_id_start c then Braced (str1 c) else plain
  | Braced id =>
      if is_id_char c then Braced (id +:+ str1 c)
      else if Ascii.eqb c "}" then Plain
      else plain
  end.

(** The text the scan puts out on reading [c] in state [st]. *)
Definition emit (mapping : gmap string PyValue) (st : State) (c : ascii) : string :=
  let plain := if Ascii.eqb c DOLLAR then EmptyString else str1 c in
  match st with
  | Plain => plain
  | Delim =>
      if Ascii.eqb c DOLLAR then "$"
      else if is_id_start c then EmptyString
      else if Ascii.eqb c "{" then EmptyString
      else "$" +:+ plain
  | Named id => if is_id_char c then EmptyString else named mapping id +:+ plain
  | OpenBrace => if is_id_start c then EmptyString else "${" +:+ plain
  | Braced id =>
      if is_id_char c then EmptyString
      else if Ascii.eqb c "}" then braced mapping id
      else "${" +:+ id +:+ plain
  end.

Fixpoint emitted (mapping : gmap string PyValue) (st : State) (s : string) : string :=
  match s with
  | EmptyString => EmptyString
  | String c s' => emit mapping st c +:+ emitted mapping (next st c) s'
  end.

Fixpoint state_after (st : State) (s : string) : State :=
  match s with
  | EmptyString => st
  | String c s' => state_after (next st c) s'
  end.

(** A text after which the scan is back in plain text: it does not end
    inside a placeholder or behind a lone delimiter. *)
Definition ends_plain (s : string) : bool :=
  match state_after Plain s with
  | Plain => true
  | _ => false
  end.

Fixpoint all_id_chars (s : string) : bool :=
  match s with
  | EmptyString => true
  | String c s' => is_id_char c && all_id_chars s'
  end.

(** The identifiers of placeholders: a letter or underscore followed
    by letters, digits and underscores. *)
Definition is_identifier (s : string) : bool :=
  match s with
  | EmptyString => false
  | String c s' => is_id_start c && all_id_chars s'
  end.

End TemplateMachine.

(** ** More sample data *)

Module Sample2.

(** Templates with braced placeholders. *)
Definition braced_config (fix_key : string) : Config :=
  {| code_generation :=
       {| prompt_training_base := "Base: $role, ${style}.";
          prompt_training_generate := "Input: " +:+ "${problem_statement}" +:+ " End";
          prompt_training_fix := "Input: " +:+ "${" +:+ fix_key +:+ "}" +:+ " End";
          prompt_training_review := "Review ${training_code}";
          allowed_packages := ["numpy"] |};
     execution := {| training_data_path := "/data" |} |}.

(** An object that names [code] twice. *)
Definition duplicate_code_response : string :=
  "{" +:+ Sample.quoted "code" +:+ ": 1, " +:+ Sample.quoted "plan" +:+ ": "
  +:+ Sample.quoted "p" +:+ ", " +:+ Sample.quoted "code" +:+ ": "
  +:+ Sample.quoted "y=2" +:+ "}".

(** An object with a [code] and no [plan]. *)
Definition code_only_response : string :=
  "{" +:+ Sample.quoted "code" +:+ ": " +:+ Sample.quoted "y=2" +:+ "}".

Definition calls : list Call :=
  [ GenerateTrainingCode "fit a line" "p";
    GenerateTrainingTests "fit a line" "p" "x=1";
    FixTrainingCode "x=1" "p" "wrong" None;
    ReviewTrainingCode "x=1" "fit a line" "p" (Some "NameError") ].

(** One call of [fix_training_code] on the sample object, with the
    provider answering from [answers]. *)
Definition run_fix (answers : list string)
  : (PyError unit + string) * TrainingCodeGenerator (PState := list string) :=
  fix_training_code Sample.scripted (Extractor.extract Extractor.ReturnEmpty)
                    Sample.config "x=" "p" "assign 1" None (Sample.generator answers).

End Sample2.

(* ===================================================================== *)
(** * Part II: properties *)
(* ===================================================================== *)

(** ** The code extractor *)

Lemma append_cons c (a b : string) : String c a +:+ b = String c (a +:+ b).
Proof. reflexivity. Qed.

Lemma append_nil (b : string) : EmptyString +:+ b = b.
Proof. reflexivity. Qed.

Ltac sapp := rewrite ?append_cons, ?append_nil in *.

Module ExtractorFacts.
Import Extractor.

Lemma space_not_backtick c : is_space c = true -> Ascii.eqb c BACKTICK = false.
Proof.
  unfold is_space. intros H.
  destruct (Ascii.eqb c BACKTICK) eqn:E; [|reflexivity].
  apply Ascii.eqb_eq in E. subst c. discriminate H.
Qed.

Lemma starts_fence_space c s : is_space c = true -> starts_fence (String c s) = None.
Proof.
  intros H. unfold starts_fence. rewrite (space_not_backtick c H).
  destruct s as [|b [|d r]]; reflexivity.
Qed.

Lemma starts_fence_app a t rest :
  starts_fence a = Some rest -> starts_fence (a +:+ t) = Some (rest +:+ t).
Proof.
  destruct a as [|x [|y [|z r]]]; simpl; try discriminate.
  destruct (_ && _); [|discriminate]. intros [= <-]. reflexivity.
Qed.

Lemma starts_fence_prefix a t :
  starts_fence (a +:+ t) = None -> starts_fence a = None.
Proof.
  intros H. destruct (starts_fence a) eqn:E; [|reflexivity].
  rewrite (starts_fence_app _ t _ E) in H. discriminate.
Qed.

Lemma split_fence_cons c s :
  starts_fence (String c s) = None ->
  split_fence (String c s) =
    match split_fence s with
    | Some (before, after) => Some (String c before, after)
    | None => None
    end.
Proof. intros H. cbn [split_fence]. rewrite H. reflexivity. Qed.

Lemma split_fence_None_inv c s :
  split_fence (String c s) = None ->
  starts_fence (String c s) = None /\ split_fence s = None.
Proof.
  cbn [split_fence]. destruct (starts_fence (String c s)); [discriminate|].
  destruct (split_fence s) as [[? ?]|]; [discriminate|]. auto.
Qed.

(** A text without fence marker keeps none in any of its prefixes. *)
Lemma no_fence_prefix a t :
  split_fence (a +:+ t) = None -> split_fence a = None.
Proof.
  induction a as [|c a IH]; [reflexivity|]. rewrite append_cons.
  intros H. apply split_fence_None_inv in H as [Hs Hr].
  rewrite split_fence_cons by (eapply starts_fence_prefix; exact Hs).
  rewrite (IH Hr). reflexivity.
Qed.

Lemma no_fence_tail c s : split_fence (String c s) = None -> split_fence s = None.
Proof. intros H. apply split_fence_None_inv in H. tauto. Qed.

(** [split_fence] cuts the text at a marker, and no marker lies before
    the cut. *)
Lemma split_fence_Some s before after :
  split_fence s = Some (before, after) ->
  s = before +:+ "```" +:+ after /\ split_fence before = None.
Proof.
  revert before. induction s as [|c s IH]; intros before; [discriminate|].
  cbn [split_fence]. destruct (starts_fence (String c s)) as [rest|] eqn:Hs.
  - intros [= <- <-]. split; [|reflexivity].
    destruct s as [|b [|d r]]; try discriminate Hs. cbn in Hs.
    destruct (Ascii.eqb c BACKTICK) eqn:E1; [|discriminate].
    destruct (Ascii.eqb b BACKTICK) eqn:E2; [|discriminate].
    destruct (Ascii.eqb d BACKTICK) eqn:E3; [|discriminate].
    apply Ascii.eqb_eq in E1, E2, E3. subst. injection Hs as <-. reflexivity.
  - destruct (split_fence s) as [[b a]|] eqn:Hr; [|discriminate].
    intros [= <- <-]. destruct (IH _ eq_refl) as [-> Hb]. split; [reflexivity|].
    rewrite split_fence_cons by (eapply starts_fence_prefix; exact Hs).
    rewrite Hb. reflexivity.
Qed.

Lemma rstrip_prefix s : exists w, s = rstrip s +:+ w.
Proof.
  induction s as [|c s [w IH]]; [exists EmptyString; reflexivity|].
  cbn [rstrip]. destruct (rstrip s) as [|d r] eqn:E.
  - destruct (is_space c).
    + exists (String c s). reflexivity.
    + exists s. reflexivity.
  - exists w. sapp. congruence.
Qed.

Lemma no_fence_rstrip s : split_fence s = None -> split_fence (rstrip s) = None.
Proof.
  destruct (rstrip_prefix s) as [w Hw]. intros H. rewrite Hw in H.
  eapply no_fence_prefix; exact H.
Qed.

Lemma no_fence_lstrip s : split_fence s = None -> split_fence (lstrip s) = None.
Proof.
  induction s as [|c s IH]; [reflexivity|]. intros H. cbn [lstrip].
  destruct (is_space c); [|exact H]. apply IH. eapply no_fence_tail; exact H.
Qed.

Lemma no_fence_strip s : split_fence s = None -> split_fence (strip s) = None.
Proof. intros H. unfold strip. apply no_fence_lstrip, no_fence_rstrip, H. Qed.

Lemma no_fence_after_newline s r :
  split_fence s = None -> after_newline s = Some r -> split_fence r = None.
Proof.
  induction s as [|c s IH]; [discriminate|]. intros H. cbn [after_newline].
  pose proof (no_fence_tail _ _ H) as Ht.
  destruct (Ascii.eqb c LF); [intros [= <-]; exact Ht | auto].
Qed.

Lemma no_fence_strip_language_tag s :
  split_fence s = None -> split_fence (strip_language_tag s) = None.
Proof.
  intros H. unfold strip_language_tag.
  destruct (after_newline s) eqn:E; [|exact H].
  eapply no_fence_after_newline; eauto.
Qed.

(** *** Trimming *)

Lemma rstrip_nonspace c s : is_space c = false -> rstrip (String c s) = String c (rstrip s).
Proof. intros H. cbn [rstrip]. rewrite H. destruct (rstrip s); reflexivity. Qed.

Lemma rstrip_idem s : rstrip (rstrip s) = rstrip s.
Proof.
  induction s as [|c s IH]; [reflexivity|]. cbn [rstrip].
  destruct (rstrip s) as [|d r] eqn:E.
  - destruct (is_space c) eqn:Hc; [reflexivity|]. cbn. rewrite Hc. reflexivity.
  - change (rstrip (String c (String d r))) with
      (match rstrip (String d r) with
       | EmptyString => if is_space c then EmptyString else str1 c
       | String d' r' => String c (String d' r')
       end).
    rewrite IH. reflexivity.
Qed.

Lemma lstrip_idem s : lstrip (lstrip s) = lstrip s.
Proof.
  induction s as [|c s IH]; [reflexivity|]. cbn [lstrip].
  destruct (is_space c) eqn:Hc; [exact IH|]. cbn [lstrip]. rewrite Hc. reflexivity.
Qed.

Lemma lstrip_rstrip_comm s : lstrip (rstrip s) = rstrip (lstrip s).
Proof.
  induction s as [|c s IH]; [reflexivity|].
  destruct (is_space c) eqn:Hc.
  - cbn [lstrip rstrip]. rewrite Hc, <- IH.
    destruct (rstrip s); [reflexivity|]. cbn [lstrip]. rewrite Hc. reflexivity.
  - cbn [lstrip]. rewrite Hc. rewrite rstrip_nonspace by exact Hc.
    cbn [lstrip]. rewrite Hc. reflexivity.
Qed.

Lemma strip_idem s : strip (strip s) = strip s.
Proof.
  unfold strip. rewrite <- (lstrip_rstrip_comm (rstrip s)).
  rewrite rstrip_idem, lstrip_idem. reflexivity.
Qed.

(** *** Trimming creates no block *)

Lemma split_fence_lstrip s before after :
  split_fence s = Some (before, after) ->
  split_fence (lstrip s) = Some (lstrip before, after).
Proof.
  revert before. induction s as [|c s IH]; intros before; [discriminate|].
  destruct (is_space c) eqn:Hc.
  - rewrite split_fence_cons by (apply starts_fence_space; exact Hc).
    destruct (split_fence s) as [[b a]|]; [|discriminate].
    intros [= <- <-]. cbn [lstrip]. rewrite Hc. apply IH. reflexivity.
  - intros H. cbn [lstrip]. rewrite Hc, H. f_equal. f_equal.
    destruct before as [|x b]; [reflexivity|].
    apply split_fence_Some in H as [H _]. injection H as <- _.
    cbn [lstrip]. rewrite Hc. reflexivity.
Qed.

Lemma backtick_not_space : is_space BACKTICK = false.
Proof. reflexivity. Qed.

Lemma split_fence_rstrip s before after :
  split_fence s = Some (before, after) ->
  split_fence (rstrip s) = Some (before, rstrip after).
Proof.
  revert before. induction s as [|c s IH]; intros before; [discriminate|].
  cbn [split_fence]. destruct (starts_fence (String c s)) as [rest|] eqn:Hs.
  - intros [= <- <-].
    destruct (split_fence_Some (String c s) EmptyString rest) as [E _].
    { cbn [split_fence]. rewrite Hs. reflexivity. }
    rewrite E.
    change (EmptyString +:+ "```" +:+ rest)
      with (String BACKTICK (String BACKTICK (String BACKTICK rest))).
    rewrite !rstrip_nonspace by apply backtick_not_space. reflexivity.
  - destruct (split_fence s) as [[b a]|] eqn:Hr; [|discriminate].
    intros [= <- <-]. specialize (IH _ eq_refl).
    assert (Hc : rstrip (String c s) = String c (rstrip s)).
    { cbn [rstrip]. destruct (rstrip s); [discriminate IH | reflexivity]. }
    rewrite Hc. destruct (rstrip_prefix s) as [w Hw].
    rewrite split_fence_cons, IH; [reflexivity|].
    apply (starts_fence_prefix _ w). rewrite append_cons, <- Hw. exact Hs.
Qed.

Lemma find_block_strip_None t : find_block t = None -> find_block (strip t) = None.
Proof.
  unfold find_block, strip. destruct (split_fence t) as [[b rest]|] eqn:E.
  - destruct (split_fence rest) as [[body ?]|] eqn:E2; [discriminate|]. intros _.
    rewrite (split_fence_lstrip _ _ _ (split_fence_rstrip _ _ _ E)).
    rewrite (no_fence_rstrip _ E2). reflexivity.
  - intros _. rewrite (no_fence_lstrip _ (no_fence_rstrip _ E)). reflexivity.
Qed.

Lemma find_block_no_fence t : split_fence t = None -> find_block t = None.
Proof. intros H. unfold find_block. rewrite H. reflexivity. Qed.

(** The content returned for a block holds no fence marker. *)
Lemma block_content_no_fence t body :
  find_block t = Some body ->
  split_fence (strip (strip_language_tag body)) = None.
Proof.
  unfold find_block. destruct (split_fence t) as [[b rest]|]; [|discriminate].
  destruct (split_fence rest) as [[body' a]|] eqn:E; [|discriminate].
  intros [= <-]. apply split_fence_Some in E as [_ E].
  apply no_fence_strip, no_fence_strip_language_tag, E.
Qed.

Lemma extract_trimmed_idempotent t :
  extract ReturnTrimmedInput (extract ReturnTrimmedInput t) = extract ReturnTrimmedInput t.
Proof.
  unfold extract at 2 3. destruct (find_block t) as [body|] eqn:E.
  - unfold extract. rewrite (find_block_no_fence _ (block_content_no_fence _ _ E)).
    apply strip_idem.
  - unfold extract. cbn [on_miss]. rewrite (find_block_strip_None _ E). cbn [on_miss].
    apply strip_idem.
Qed.

Lemma extract_empty_twice t :
  extract ReturnEmpty (extract ReturnEmpty t) = EmptyString.
Proof.
  unfold extract at 2. destruct (find_block t) as [body|] eqn:E.
  - unfold extract. rewrite (find_block_no_fence _ (block_content_no_fence _ _ E)).
    reflexivity.
  - reflexivity.
Qed.

End ExtractorFacts.

(** ** [json.loads] always has enough recursion budget *)

Module JsonFacts.
Import Json.

Lemma length_cons c s : String.length (String c s) = S (String.length s).
Proof. reflexivity. Qed.

Lemma shrinks_mono {A : Type} (t s : string) (x : Scan A) :
  shrinks t x -> String.length t <= String.length s -> shrinks s x.
Proof. destruct x; simpl; [lia | trivial | trivial]. Qed.

Lemma shrinks_push t chunk x : shrinks t x -> shrinks t (push chunk x).
Proof. destruct x; simpl; trivial. Qed.

Lemma skip_ws_length s : String.length (skip_ws s) <= String.length s.
Proof.
  induction s as [|c s IH]; [reflexivity|]. cbn [skip_ws].
  destruct (is_ws c); rewrite ?length_cons; lia.
Qed.

Lemma skip_ws_cons_length s d r :
  skip_ws s = String d r -> String.length r < String.length s.
Proof.
  intros H. pose proof (skip_ws_length s) as L. rewrite H, length_cons in L. lia.
Qed.

Lemma scanstring_shrinks_bounded n :
  forall s, String.length s <= n -> shrinks s (scanstring s).
Proof.
  induction n as [|n IH]; intros s Hn.
  - destruct s; [exact I | rewrite length_cons in Hn; lia].
  - assert (REC : forall t, String.length t < String.length s ->
                            forall chunk, shrinks s (push chunk (scanstring t))).
    { intros t Ht chunk. apply shrinks_push. eapply shrinks_mono; [apply IH|]; lia. }
    destruct s as [|c s]; [exact I|]. cbn [scanstring].
    destruct (Ascii.eqb c DQUOTE); [simpl; lia|].
    destruct (Ascii.eqb c BACKSLASH).
    + destruct s as [|e s]; [exact I|].
      destruct (Ascii.eqb e "u").
      * destruct s as [|h1 [|h2 [|h3 [|h4 r]]]]; try exact I.
        destruct (hex4 h1 h2 h3 h4) as [hi|]; [|exact I].
        destruct r as [|b [|u [|l1 [|l2 [|l3 [|l4 r']]]]]];
          try (apply REC; rewrite ?length_cons; lia).
        destruct (_ && _); [|apply REC; rewrite ?length_cons; lia].
        destruct (hex4 l1 l2 l3 l4) as [lo|]; [|exact I].
        destruct (is_low_surrogate lo); apply REC; rewrite ?length_cons; lia.
      * destruct (simple_escape e); [|exact I]. apply REC. rewrite ?length_cons. lia.
    + destruct (_ <? _)%nat; [exact I|]. apply REC. rewrite ?length_cons. lia.
Qed.

Lemma scanstring_shrinks s : shrinks s (scanstring s).
Proof. apply (scanstring_shrinks_bounded (String.length s)). lia. Qed.

Lemma span_digits_length s ds r :
  span_digits s = (ds, r) -> String.length r <= String.length s.
Proof.
  revert ds r. induction s as [|c s IH]; intros ds r; cbn [span_digits].
  - intros [= <- <-]. reflexivity.
  - destruct (is_digit c).
    + destruct (span_digits s) as [ds' r'] eqn:E. intros [= <- <-].
      rewrite length_cons. specialize (IH _ _ eq_refl). lia.
    + intros [= <- <-]. reflexivity.
Qed.

Lemma match_sign_length f s sg r :
  match_sign f s = (sg, r) -> String.length r <= String.length s.
Proof.
  destruct s as [|c s]; cbn [match_sign]; [intros [= <- <-]; reflexivity|].
  destruct (f c); intros [= <- <-]; rewrite ?length_cons; lia.
Qed.

Lemma match_int_length s i r :
  match_int s = Some (i, r) -> String.length r < String.length s.
Proof.
  unfold match_int. destruct (match_sign _ s) as [sg s1] eqn:E.
  apply match_sign_length in E. destruct s1 as [|d s2]; [discriminate|].
  rewrite length_cons in E. destruct (Ascii.eqb d "0"); [intros [= <- <-]; lia|].
  destruct (is_digit d); [|discriminate].
  destruct (span_digits s2) as [ds r'] eqn:E2. apply span_digits_length in E2.
  intros [= <- <-]. lia.
Qed.

Lemma match_frac_length s f r :
  match_frac s = (f, r) -> String.length r <= String.length s.
Proof.
  destruct s as [|c s]; cbn [match_frac]; [intros [= <- <-]; reflexivity|].
  destruct (Ascii.eqb c "."); [|intros [= <- <-]; reflexivity].
  destruct (span_digits s) as [ds r'] eqn:E. apply span_digits_length in E.
  destruct ds; intros [= <- <-]; rewrite ?length_cons; lia.
Qed.

Lemma match_exp_length s e r :
  match_exp s = (e, r) -> String.length r <= String.length s.
Proof.
  destruct s as [|c s]; cbn [match_exp]; [intros [= <- <-]; reflexivity|].
  destruct (_ || _); [|intros [= <- <-]; reflexivity].
  destruct (match_sign _ s) as [sg s2] eqn:E1. apply match_sign_length in E1.
  destruct (span_digits s2) as [ds r'] eqn:E2. apply span_digits_length in E2.
  destruct ds; intros [= <- <-]; rewrite ?length_cons; lia.
Qed.

Lemma match_number_length s lexeme r :
  match_number s = Some (lexeme, r) -> String.length r < String.length s.
Proof.
  unfold match_number. destruct (match_int s) as [[i r1]|] eqn:E1; [|discriminate].
  apply match_int_length in E1.
  destruct (match_frac r1) as [f r2] eqn:E2. apply match_frac_length in E2.
  destruct (match_exp r2) as [e r3] eqn:E3. apply match_exp_length in E3.
  intros [= <- <-]. lia.
Qed.

Lemma strip_prefix_length p s r :
  strip_prefix p s = Some r -> String.length s = String.length p + String.length r.
Proof.
  revert s. induction p as [|a p IH]; intros s; cbn [strip_prefix].
  - intros [= <-]. reflexivity.
  - destruct s as [|b s]; [discriminate|]. destruct (Ascii.eqb a b); [|discriminate].
    intros H. apply IH in H. rewrite !length_cons. lia.
Qed.

Lemma scan_atom_shrinks s : shrinks s (scan_atom s).
Proof.
  unfold scan_atom.
  repeat match goal with
         | |- context [strip_prefix ?p s] =>
             let E := fresh "E" in
             destruct (strip_prefix p s) eqn:E;
             [apply strip_prefix_length in E; cbn in E; simpl; lia|]
         end.
  destruct (match_number s) as [[lexeme r]|] eqn:En.
  - apply match_number_length in En. exact En.
  - repeat match goal with
           | |- context [strip_prefix ?p s] =>
               let E := fresh "E" in
               destruct (strip_prefix p s) eqn:E;
               [apply strip_prefix_length in E; cbn in E; simpl; lia|]
           end.
    exact I.
Qed.

(** With a budget above twice the length of the text, neither the
    scanner nor its two loops run out of budget, and each consumes
    input when it succeeds. *)
Lemma scan_once_shrinks fuel :
  (forall s, 2 * String.length s < fuel -> shrinks s (scan_once fuel s))
  /\ (forall s acc, 2 * String.length s + 1 < fuel ->
                    shrinks s (object_members fuel s acc))
  /\ (forall s acc, 2 * String.length s + 1 < fuel ->
                    shrinks s (array_items fuel s acc)).
Proof.
  induction fuel as [|fuel (IHv & IHo & IHa)]; [repeat split; intros; lia|].
  repeat split.
  - intros s Hf. destruct s as [|c s]; [exact I|]. rewrite length_cons in Hf.
    cbn [scan_once]. destruct (Ascii.eqb c DQUOTE).
    { pose proof (scanstring_shrinks s) as H.
      destruct (scanstring s); simpl in *; lia. }
    destruct (Ascii.eqb c "{").
    { destruct (skip_ws s) as [|d s2] eqn:E; [exact I|].
      apply skip_ws_cons_length in E.
      destruct (Ascii.eqb d "}"); [simpl; lia|].
      destruct (Ascii.eqb d DQUOTE); [|exact I].
      eapply shrinks_mono; [apply IHo|]; rewrite ?length_cons; lia. }
    destruct (Ascii.eqb c "[").
    { destruct (skip_ws s) as [|d s2] eqn:E; [exact I|].
      pose proof (skip_ws_length s) as L. rewrite E, length_cons in L.
      destruct (Ascii.eqb d "]"); [simpl; lia|].
      eapply shrinks_mono; [apply IHa|]; rewrite ?length_cons; lia. }
    apply scan_atom_shrinks.
  - intros s acc Hf. cbn [object_members].
    pose proof (scanstring_shrinks s) as Hk.
    destruct (scanstring s) as [key r| |]; [|exact I|exact Hk]. simpl in Hk.
    destruct (skip_ws r) as [|c r1] eqn:E1; [exact I|].
    apply skip_ws_cons_length in E1.
    destruct (Ascii.eqb c ":"); [|exact I].
    pose proof (skip_ws_length r1) as L1.
    assert (Hv : shrinks (skip_ws r1) (scan_once fuel (skip_ws r1))) by (apply IHv; lia).
    destruct (scan_once fuel (skip_ws r1)) as [v r2| |]; [|exact I|exact Hv].
    simpl in Hv. destruct (skip_ws r2) as [|d r3] eqn:E3; [exact I|].
    apply skip_ws_cons_length in E3.
    destruct (Ascii.eqb d "}"); [simpl; lia|].
    destruct (Ascii.eqb d ","); [|exact I].
    destruct (skip_ws r3) as [|q r4] eqn:E4; [exact I|].
    apply skip_ws_cons_length in E4.
    destruct (Ascii.eqb q DQUOTE); [|exact I].
    eapply shrinks_mono; [apply IHo|]; lia.
  - intros s acc Hf. cbn [array_items].
    assert (Hv : shrinks s (scan_once fuel s)) by (apply IHv; lia).
    destruct (scan_once fuel s) as [v r| |]; [|exact I|exact Hv].
    simpl in Hv. destruct (skip_ws r) as [|d r1] eqn:E1; [exact I|].
    apply skip_ws_cons_length in E1.
    destruct (Ascii.eqb d "]"); [simpl; lia|].
    destruct (Ascii.eqb d ","); [|exact I].
    pose proof (skip_ws_length r1) as L1.
    eapply shrinks_mono; [apply IHa|]; lia.
Qed.

(** [json.loads] either decodes the text or rejects it as malformed: the
    recursion budget of the model is never the reason of a failure. *)
Lemma json_loads_recursion_free {E : Type} (s : string) :
  @loads E s <> inl RecursionError.
Proof.
  unfold loads.
  assert (H : shrinks (skip_ws s) (scan_once (2 * String.length s + 1) (skip_ws s))).
  { apply scan_once_shrinks. pose proof (skip_ws_length s). lia. }
  destruct (scan_once _ _); [|discriminate|destruct H].
  destruct (is_empty _); discriminate.
Qed.

(** The only way [json.loads] fails is [JSONDecodeError]. *)
Lemma json_loads_error {E : Type} (s : string) (e : PyError E) :
  loads s = inl e -> e = JSONDecodeError.
Proof.
  intros H. pose proof (json_loads_recursion_free (E := E) s) as Hfree.
  unfold loads in H, Hfree.
  destruct (scan_once _ _) as [v r| |]; [|congruence|congruence].
  destruct (is_empty _); congruence.
Qed.

End JsonFacts.

(** ** Traces *)

Lemma provider_calls_query tr q :
  provider_calls (tr ++ [ProviderQuery q]) = provider_calls tr ++ [q].
Proof. unfold provider_calls. rewrite omap_app. reflexivity. Qed.

Lemma provider_calls_extract tr text :
  provider_calls (tr ++ [ExtractCode text]) = provider_calls tr.
Proof. unfold provider_calls. rewrite omap_app. apply app_nil_r. Qed.

Lemma extractor_calls_query tr q :
  extractor_calls (tr ++ [ProviderQuery q]) = extractor_calls tr.
Proof. unfold extractor_calls. rewrite omap_app. apply app_nil_r. Qed.

Lemma extractor_calls_extract tr text :
  extractor_calls (tr ++ [ExtractCode text]) = extractor_calls tr ++ [text].
Proof. unfold extractor_calls. rewrite omap_app. reflexivity. Qed.

(** ** Templates read the mapping through [str] *)

Module TemplateFacts.

Lemma named_same m1 m2 id : same_rendering m1 m2 -> named m1 id = named m2 id.
Proof.
  intros H. specialize (H id). unfold named.
  destruct (m1 !! id), (m2 !! id); simpl in H; congruence.
Qed.

Lemma braced_same m1 m2 id : same_rendering m1 m2 -> braced m1 id = braced m2 id.
Proof.
  intros H. specialize (H id). unfold braced.
  destruct (m1 !! id), (m2 !! id); simpl in H; congruence.
Qed.

Lemma scan_same m1 m2 s :
  same_rendering m1 m2 -> forall st, scan m1 st s = scan m2 st s.
Proof.
  intros H. induction s as [|c s IH]; intros st.
  - destruct st; cbn [scan flush]; auto using named_same.
  - destruct st; cbn [scan];
      rewrite ?(named_same _ _ _ H), ?(braced_same _ _ _ H);
      repeat rewrite IH; reflexivity.
Qed.

Lemma safe_substitute_same template m1 m2 :
  same_rendering m1 m2 -> safe_substitute template m1 = safe_substitute template m2.
Proof. intros H. apply scan_same, H. Qed.

End TemplateFacts.

(** ** Keyword arguments of the structured response *)

Module FixResponseFacts.
Import Json FixResponse.

Lemma foldl_insert_absent (members : list (string * JSON)) :
  forall (m : gmap string JSON) (k : string),
    m !! k = None -> k ∉ members.*1 ->
    foldl (fun (m : gmap string JSON) (kv : string * JSON) => <[kv.1 := kv.2]> m)
          m members !! k = None.
Proof.
  induction members as [|[k' v] members IH]; intros m k Hm Hk; [exact Hm|].
  cbn [foldl fst snd]. rewrite fmap_cons in Hk. cbn [fst] in Hk.
  apply not_elem_of_cons in Hk as [Hne Hk]. apply IH; [|exact Hk].
  apply lookup_insert_None. split; [exact Hm | congruence].
Qed.

(** An object without a member called [k] unpacks to keyword arguments
    without [k]. *)
Lemma dict_absent members k : k ∉ members.*1 -> dict members !! k = None.
Proof. intros H. apply foldl_insert_absent; [apply lookup_empty | exact H]. Qed.

Lemma validate_missing_code {E : Type} (data : gmap string JSON) :
  data !! "code" = None ->
  exists errors, @validate E data = inl (ValidationError errors)
                 /\ ("code", missing) ∈ errors.
Proof.
  intros H. unfold validate, field. rewrite H.
  destruct (data !! "plan") as [[]|]; eexists; (split; [reflexivity|]);
    cbn [field_errors app]; repeat constructor.
Qed.

Lemma validate_strings {E : Type} (data : gmap string JSON) p c :
  data !! "plan" = Some (JString p) -> data !! "code" = Some (JString c) ->
  @validate E data = inr {| plan := p; code := c |}.
Proof. intros Hp Hc. unfold validate, field. rewrite Hp, Hc. reflexivity. Qed.

End FixResponseFacts.

(** ** The operations of [TrainingCodeGenerator] *)

Section GeneratorProperties.

Context {PState E : Type}.
Variable query : PState -> Query -> (E + string) * PState.
Variable extract_code : string -> string.
Variable config : Config.

Local Abbreviation Gen := (TrainingCodeGenerator (PState := PState)).
Local Abbreviation loads := (Json.loads (E := E)).

(** *** History is only read *)

Lemma preserves_history_ret {A : Type} (a : A) :
  preserves_history (PState := PState) (E := E) (ret a).
Proof. intros self. reflexivity. Qed.

Lemma preserves_history_raise {A : Type} (e : PyError E) :
  preserves_history (PState := PState) (raise (A := A) e).
Proof. intros self. reflexivity. Qed.

Lemma preserves_history_lift {A : Type} (r : PyError E + A) :
  preserves_history (PState := PState) (lift r).
Proof. intros self. reflexivity. Qed.

Lemma preserves_history_self_history :
  preserves_history (PState := PState) (E := E) self_history.
Proof. intros self. reflexivity. Qed.

Lemma preserves_history_query q : preserves_history (self_provider_query query q).
Proof.
  intros self. unfold self_provider_query.
  destruct (query (provider self) q) as [[e|text] p']; reflexivity.
Qed.

Lemma preserves_history_extract text :
  preserves_history (PState := PState) (E := E) (call_extract_code extract_code text).
Proof. intros self. reflexivity. Qed.

Lemma preserves_history_bind {A B : Type}
      (m : Method (PState := PState) (E := E) A) (k : A -> Method B) :
  preserves_history m -> (forall a, preserves_history (k a)) ->
  preserves_history (bind m k).
Proof.
  intros Hm Hk self. unfold bind. specialize (Hm self).
  destruct (m self) as [[e|a] self']; cbn [fst snd] in *; [exact Hm|].
  rewrite Hk. exact Hm.
Qed.

Create HintDb frame.
Hint Resolve preserves_history_ret preserves_history_raise preserves_history_lift
  preserves_history_self_history preserves_history_query preserves_history_extract
  preserves_history_bind : frame.

(** *** What one provider query does to the object *)

Lemma self_provider_query_spec q (self : Gen) :
  self_provider_query query q self =
    (match (query (provider self) q).1 with
     | inr text => inr text
     | inl e => inl (ProviderError e)
     end,
     {| provider := (query (provider self) q).2;
        history := history self;
        trace := trace self ++ [ProviderQuery q] |}).
Proof.
  unfold self_provider_query.
  destruct (query (provider self) q) as [[e|text] p']; reflexivity.
Qed.

(** When the provider answers [text], [fix_training_code] continues with
    decoding and validating [text] in the state left by the query. *)
Lemma fix_training_code_answer training_code plan review_text problems
      (self : Gen) text p' :
  query (provider self) (fix_query config training_code plan review_text problems)
    = (inr text, p') ->
  (fix_training_code query extract_code config
                     training_code plan review_text problems self).1 =
    match loads text with
    | inl e => inl e
    | inr decoded =>
        match FixResponse.kwargs decoded with
        | inl e => inl e
        | inr data =>
            match FixResponse.validate data with
            | inl e => inl e
            | inr response => inr (extract_code (FixResponse.code response))
            end
        end
    end.
Proof.
  intros Hq. unfold fix_training_code, bind at 1.
  rewrite self_provider_query_spec, Hq. cbn [fst snd].
  unfold bind, lift, call_extract_code.
  destruct (loads text) as [e|decoded]; [reflexivity|].
  destruct (FixResponse.kwargs decoded) as [e|data]; [reflexivity|].
  destruct (FixResponse.validate data) as [e|response]; reflexivity.
Qed.


(** C2: [generate_training_code] issues exactly one provider query, the
    one built from the problem statement, the plan and the current
    history, and returns the code extractor applied to the text of
    that query's answer; when the provider raises, the exception is
    propagated after that single query. *)
Theorem generate_issues_one_query problem_statement plan (self : Gen) :
  let q := generate_query config (history self) problem_statement plan in
  let answer := (query (provider self) q).1 in
  let out := generate_training_code query extract_code config problem_statement plan self in
  provider_calls (trace out.2) = provider_calls (trace self) ++ [q]
  /\ provider out.2 = (query (provider self) q).2
  /\ out.1 = match answer with
             | inr text => inr (extract_code text)
             | inl e => inl (ProviderError e)
             end
  /\ extractor_calls (trace out.2) =
       extractor_calls (trace self)
       ++ match answer with inr text => [text] | inl _ => [] end.
Proof.
  cbv zeta. unfold generate_training_code, bind, self_history, call_extract_code, log.
  cbn [fst snd]. rewrite self_provider_query_spec.
  destruct (query (provider self) _) as [[e|text] p'];
    cbn [fst snd trace provider history].
  - rewrite provider_calls_query, extractor_calls_query, app_nil_r. auto.
  - rewrite provider_calls_extract, provider_calls_query,
      extractor_calls_extract, extractor_calls_query. auto.
Qed.

(** C3: [review_training_code] issues a single provider query and
    returns the text of its answer unchanged; it makes no call to the
    code extractor and leaves the conversation history as it was. *)
Theorem review_returns_raw_text training_code problem_statement plan problems
        (self : Gen) :
  let q := review_query config (history self) training_code problem_statement
                        plan problems in
  let out := review_training_code query config training_code problem_statement
                                  plan problems self in
  out.1 = match (query (provider self) q).1 with
          | inr text => inr text
          | inl e => inl (ProviderError e)
          end
  /\ provider_calls (trace out.2) = provider_calls (trace self) ++ [q]
  /\ extractor_calls (trace out.2) = extractor_calls (trace self)
  /\ history out.2 = history self.
Proof.
  cbv zeta. unfold review_training_code, bind, self_history.
  rewrite self_provider_query_spec. cbn [fst snd trace history].
  rewrite provider_calls_query, extractor_calls_query. auto.
Qed.

(** C4: [generate_training_tests], [fix_training_tests] and
    [review_training_tests] raise [NotImplementedError] on every input,
    an exception of a kind of its own, and leave the object untouched:
    no provider call is made and nothing is returned. *)
Theorem test_operations_not_implemented
        (a b c d : string) (problems : option string) (self : Gen) :
  generate_training_tests (E := E) a b c self
    = (inl (NotImplementedError
              "Generation of the training tests is not yet implemented."), self)
  /\ fix_training_tests (E := E) a b c problems self
     = (inl (NotImplementedError
               "Fixing of the training tests is not yet implemented."), self)
  /\ review_training_tests (E := E) a b c d self
     = (inl (NotImplementedError
               "Review of the training tests is not yet implemented."), self)
  /\ forall msg,
       is_not_implemented (NotImplementedError (E := E) msg) = true
       /\ is_provider_error (NotImplementedError (E := E) msg) = false
       /\ is_structured_response_error (NotImplementedError (E := E) msg) = false.
Proof. repeat split. Qed.

(** C5: the conversation history after [generate_training_code],
    [fix_training_code] and [review_training_code] is the history
    before the call, whether the call returns or raises. *)
Theorem history_is_read_only
        (problem_statement plan training_code review_text : string)
        (problems : option string) (self : Gen) :
  history (generate_training_code query extract_code config
                                  problem_statement plan self).2
  = history self
  /\ history (fix_training_code query extract_code config
                                training_code plan review_text problems self).2
     = history self
  /\ history (review_training_code query config
                                   training_code problem_statement plan problems self).2
     = history self.
Proof.
  repeat split.
  - apply (preserves_history_bind _ _); auto with frame.
  - apply (preserves_history_bind _ _); auto 10 with frame.
  - apply (preserves_history_bind _ _); auto with frame.
Qed.


(** *** The fix prompt *)

Lemma fix_training_code_calls training_code plan review_text problems (self : Gen) :
  provider_calls
    (trace (fix_training_code query extract_code config
                              training_code plan review_text problems self).2)
  = provider_calls (trace self)
    ++ [fix_query config training_code plan review_text problems].
Proof.
  unfold fix_training_code, bind, lift, call_extract_code, log.
  rewrite self_provider_query_spec.
  destruct (query (provider self) _) as [[e|text] p']; cbn [fst snd];
    [apply provider_calls_query|].
  destruct (loads text) as [e|decoded]; [apply provider_calls_query|].
  destruct (FixResponse.kwargs decoded) as [e|data]; [apply provider_calls_query|].
  destruct (FixResponse.validate data) as [e|response]; cbn [snd trace];
    [apply provider_calls_query|].
  rewrite provider_calls_extract. apply provider_calls_query.
Qed.

(** C8: the one query [fix_training_code] sends has as user message the
    fix template substituted with exactly six parameters: the plan, the
    training code, the review, the problems, the training-data path and
    the allowed packages.  The history is not among them, whereas the
    mappings of generate and review hold it. *)
Theorem fix_prompt_parameters training_code plan review_text problems
        (self : Gen) (h : History) (problem_statement : string) :
  let q := fix_query config training_code plan review_text problems in
  let m := fix_mapping config training_code plan review_text problems in
  provider_calls
    (trace (fix_training_code query extract_code config
                              training_code plan review_text problems self).2)
    = provider_calls (trace self) ++ [q]
  /\ user_message q = safe_substitute (prompt_training_fix (code_generation config)) m
  /\ dom m = {[ "plan"; "training_code"; "review"; "problems";
                "training_data_path"; "allowed_packages" ]}
  /\ m !! "plan" = Some (PyStr plan)
  /\ m !! "training_code" = Some (PyStr training_code)
  /\ m !! "review" = Some (PyStr review_text)
  /\ m !! "problems" = Some (optional problems)
  /\ m !! "training_data_path" = Some (PyStr (training_data_path (execution config)))
  /\ m !! "allowed_packages"
     = Some (str_list (allowed_packages (code_generation config)))
  /\ m !! "history" = None
  /\ generate_mapping config h problem_statement plan !! "history"
     = Some (py_history h)
  /\ review_mapping config h training_code problem_statement plan problems
       !! "history" = Some (py_history h).
Proof.
  cbv zeta. split; [apply fix_training_code_calls|]. split; [reflexivity|].
  split.
  { unfold fix_mapping. rewrite !dom_insert_L, dom_singleton_L.
    apply set_eq. intros x. rewrite !elem_of_union. tauto. }
  unfold fix_mapping, generate_mapping, review_mapping.
  repeat split; reflexivity.
Qed.

(** *** The optional problems argument *)

Lemma fix_mapping_None_rendering training_code plan review_text :
  same_rendering (fix_mapping config training_code plan review_text None)
                 (fix_mapping config training_code plan review_text (Some "None")).
Proof.
  intros k. unfold fix_mapping. rewrite !lookup_insert.
  repeat (case_decide; [reflexivity|]). reflexivity.
Qed.

Lemma review_mapping_None_rendering h training_code problem_statement plan :
  same_rendering (review_mapping config h training_code problem_statement plan None)
                 (review_mapping config h training_code problem_statement plan
                                 (Some "None")).
Proof.
  intros k. unfold review_mapping. rewrite !lookup_insert.
  repeat (case_decide; [reflexivity|]). reflexivity.
Qed.


(** *** Accepted structured responses *)


End GeneratorProperties.

(** ** The minimal structured response *)

(** C6: when the provider answers a [fix_training_code] call with the
    minimal response, an object with [plan] p and [code] the fenced
    block holding x=1 under the language tag python, the call returns the
    text x=1: decoding and validation succeed, and the extractor (under
    either miss policy) strips the fence markers and the language tag. *)
Theorem fix_accepts_minimal_response {PState E : Type}
        (query : PState -> Query -> (E + string) * PState) (config : Config)
        (policy : Extractor.MissPolicy)
        (training_code plan review_text : string) (problems : option string)
        (self : TrainingCodeGenerator) (p' : PState) :
  query (provider self) (fix_query config training_code plan review_text problems)
    = (inr Sample.minimal_response, p') ->
  (fix_training_code query (Extractor.extract policy) config
                     training_code plan review_text problems self).1
  = inr "x=1".
Proof.
  intros Hq. rewrite (fix_training_code_answer _ _ _ _ _ _ _ _ _ _ Hq).
  destruct policy; vm_compute; reflexivity.
Qed.

Lemma fix_accepts_minimal_response_witness :
  Sample.scripted [Sample.minimal_response]
                  (fix_query Sample.config "x=" "p" "assign 1" None)
    = (inr Sample.minimal_response, [])
  /\ (fix_training_code Sample.scripted (Extractor.extract Extractor.ReturnEmpty)
                        Sample.config "x=" "p" "assign 1" None
                        (Sample.generator [Sample.minimal_response])).1
     = inr "x=1".
Proof.
  split; [reflexivity|].
  apply (fix_accepts_minimal_response Sample.scripted Sample.config
           Extractor.ReturnEmpty "x=" "p" "assign 1" None
           (Sample.generator [Sample.minimal_response]) []).
  reflexivity.
Defined.

(** ** Witnesses for the structured-response properties *)



(** ** Repeated extraction *)




(** ** Sample runs *)

Module Examples.
Import Json Sample.

Example loads_minimal_response :
  loads (E := unit) minimal_response
  = inr (JObject [("plan", JString "p"); ("code", JString fenced_code)]).
Proof. reflexivity. Qed.

Example loads_nested :
  loads (E := unit) " [1, -0.5e+10, true, null, {}, [ ], NaN] "
  = inr (JArray [JNumber "1"; JNumber "-0.5e+10"; JBool true; JNull;
                 JObject []; JArray []; JNumber "NaN"]).
Proof. reflexivity. Qed.

Example loads_unicode_escapes :
  loads (E := unit) (quoted "\u0041\u00e9\ud83d\ude00\/")
  = inr (JString "Aé😀/").
Proof. reflexivity. Qed.

Example loads_rejects :
  map (loads (E := unit)) [ "[1,]"; "01"; "1."; "{,}"; "[[[["; "nul"; " " ]
  = [ inl JSONDecodeError; inl JSONDecodeError; inl JSONDecodeError;
      inl JSONDecodeError; inl JSONDecodeError; inl JSONDecodeError;
      inl JSONDecodeError ].
Proof. reflexivity. Qed.

Example safe_substitute_forms :
  safe_substitute "a $x ${y} $$ $z ${z} ${ $ x $1 ${x-} $x_1$x ${x"
                  {[ "x" := PyStr "X"; "y" := PyNone ]}
  = "a X None $ $z ${z} ${ $ x $1 ${x-} $x_1X ${x".
Proof. reflexivity. Qed.

Example history_rendering :
  Py.str (py_history [[("role", "user"); ("content", "it's" +:+ str1 LF)]; []])
  = "[{'role': 'user', 'content': " +:+ quoted "it's\n" +:+ "}, {}]".
Proof. reflexivity. Qed.

(** The fix template of the sample configuration asks for the history:
    the placeholder stays as written, since the fix mapping has no such
    key. *)
Example fix_prompt_leaves_history_placeholder :
  user_message (fix_query config "x=" "p" "assign 1" None)
  = "Plan: p Code: x= Review: assign 1 Problems: None History: $history".
Proof. reflexivity. Qed.

Example generate_prompt_holds_history :
  user_message (generate_query config (history (generator [])) "fit" "p")
  = "Problem: fit Plan: p History: [{'role': 'user', 'content': 'hello'}] "
    +:+ "Packages: ['numpy', 'pandas'] Data: /data/train.csv".
Proof. reflexivity. Qed.

(** A response that is valid JSON but not an object cannot be unpacked
    into keyword arguments. *)
Example fix_non_object_response :
  (fix_training_code scripted (Extractor.extract Extractor.ReturnEmpty) config
                     "x=" "p" "assign 1" None (generator ["[1, 2]"])).1
  = inl TypeError.
Proof. reflexivity. Qed.

Example fix_plan_only_response :
  (fix_training_code scripted (Extractor.extract Extractor.ReturnEmpty) config
                     "x=" "p" "assign 1" None (generator [plan_only_response])).1
  = inl (ValidationError [("code", missing)]).
Proof. reflexivity. Qed.

Example fix_provider_failure :
  (fix_training_code scripted (Extractor.extract Extractor.ReturnEmpty) config
                     "x=" "p" "assign 1" None (generator [])).1
  = inl (ProviderError tt).
Proof. reflexivity. Qed.

Example extract_first_block :
  Extractor.extract Extractor.ReturnEmpty
    ("Here you go: " +:+ fenced_code +:+ " and also ```y=2```")
  = "x=1".
Proof. reflexivity. Qed.

Example extract_miss :
  (Extractor.extract Extractor.ReturnTrimmedInput "  x=1 ",
   Extractor.extract Extractor.ReturnEmpty "  x=1 ")
  = ("x=1", EmptyString).
Proof. reflexivity. Qed.

End Examples.

(* ===================================================================== *)
(** * Part III: further properties of the code *)
(* ===================================================================== *)

(** ** Outcomes of [fix_training_code] *)

Module ValidationFacts.
Import Json FixResponse.

Lemma kwargs_inr {E : Type} (v : JSON) (data : gmap string JSON) :
  kwargs (E := E) v = inr data -> exists members, v = JObject members /\ data = dict members.
Proof. destruct v; try discriminate. intros [= <-]. eauto. Qed.

Lemma kwargs_inl {E : Type} (v : JSON) (e : PyError E) :
  kwargs v = inl e -> e = TypeError /\ is_object v = false.
Proof. destruct v; try discriminate; intros [= <-]; auto. Qed.

Lemma kwargs_non_object {E : Type} (v : JSON) :
  is_object v = false -> kwargs (E := E) v = inl TypeError.
Proof. destruct v; try reflexivity. discriminate. Qed.

Lemma field_inr data name s : field data name = inr s -> data !! name = Some (JString s).
Proof.
  unfold field. destruct (data !! name) as [[]|]; try discriminate.
  intros [= <-]. reflexivity.
Qed.

Lemma validate_inr {E : Type} (data : gmap string JSON) (response : t) :
  validate (E := E) data = inr response ->
  data !! "plan" = Some (JString (plan response))
  /\ data !! "code" = Some (JString (code response)).
Proof.
  unfold validate.
  destruct (field data "plan") as [ep|p] eqn:Hp; [destruct (field data "code"); discriminate|].
  destruct (field data "code") as [ec|c] eqn:Hc; [discriminate|].
  intros [= <-]. split; [apply field_inr, Hp | apply field_inr, Hc].
Qed.

Lemma validate_inl {E : Type} (data : gmap string JSON) (e : PyError E) :
  validate data = inl e ->
  exists errors, e = ValidationError errors
                 /\ errors <> []
                 /\ Forall (fun fe : string * FieldError => is_fix_field fe.1 = true) errors.
Proof.
  unfold validate.
  destruct (field data "plan") as [ep|p]; destruct (field data "code") as [ec|c];
    try discriminate; intros [= <-]; eexists; (split; [reflexivity|]);
    cbn [field_errors app]; (split; [discriminate | repeat constructor]).
Qed.

End ValidationFacts.

Section FixOutcomes.

Context {PState E : Type}.
Variable query : PState -> Query -> (E + string) * PState.
Variable extract_code : string -> string.
Variable config : Config.

(** [fix_training_code] step by step: the query, then decoding,
    unpacking and validation of the answer, then the extractor. *)
Lemma fix_training_code_run training_code plan review_text problems
      (self : TrainingCodeGenerator (PState := PState)) :
  let q := fix_query config training_code plan review_text problems in
  let queried := {| provider := (query (provider self) q).2;
                    history := history self;
                    trace := trace self ++ [ProviderQuery q] |} in
  fix_training_code query extract_code config
                    training_code plan review_text problems self
  = match (query (provider self) q).1 with
    | inl pe => (inl (ProviderError pe), queried)
    | inr text =>
        match Json.loads (E := E) text with
        | inl e => (inl e, queried)
        | inr decoded =>
            match FixResponse.kwargs decoded with
            | inl e => (inl e, queried)
            | inr data =>
                match FixResponse.validate data with
                | inl e => (inl e, queried)
                | inr response =>
                    (inr (extract_code (FixResponse.code response)),
                     log (ExtractCode (FixResponse.code response)) queried)
                end
            end
        end
    end.
Proof.
  cbv zeta. unfold fix_training_code, bind, lift, call_extract_code.
  rewrite self_provider_query_spec.
  destruct (query (provider self) _) as [[pe|text] p']; cbn [fst snd]; [reflexivity|].
  destruct (Json.loads text) as [e|decoded]; [reflexivity|].
  destruct (FixResponse.kwargs decoded) as [e|data]; [reflexivity|].
  destruct (FixResponse.validate data) as [e|response]; reflexivity.
Qed.

(** X1: [fix_training_code] returns a value only when the provider
    answered with text that decodes to a JSON object whose [plan] and
    [code] entries are strings; the value is then the code extractor
    applied to the [code] entry, and the extractor was called exactly
    once, on that entry. *)
Theorem fix_success_only_if training_code plan review_text problems
        (self : TrainingCodeGenerator (PState := PState)) (r : string) :
  let q := fix_query config training_code plan review_text problems in
  let out := fix_training_code query extract_code config
                               training_code plan review_text problems self in
  out.1 = inr r ->
  exists text members p c,
    (query (provider self) q).1 = inr text
    /\ Json.loads (E := E) text = inr (Json.JObject members)
    /\ FixResponse.dict members !! "plan" = Some (Json.JString p)
    /\ FixResponse.dict members !! "code" = Some (Json.JString c)
    /\ r = extract_code c
    /\ extractor_calls (trace out.2) = extractor_calls (trace self) ++ [c].
Proof.
  cbv zeta. rewrite fix_training_code_run.
  destruct (query (provider self) _).1 as [pe|text]; [discriminate|].
  destruct (Json.loads text) as [e|decoded] eqn:Hl; [discriminate|].
  destruct (FixResponse.kwargs decoded) as [e|data] eqn:Hk; [discriminate|].
  destruct (FixResponse.validate data) as [e|response] eqn:Hv; [discriminate|].
  cbn [fst snd]. intros [= <-].
  apply ValidationFacts.kwargs_inr in Hk as (members & -> & ->).
  apply ValidationFacts.validate_inr in Hv as [Hp Hc].
  exists text, members, (FixResponse.plan response), (FixResponse.code response).
  repeat split; try assumption.
  unfold log. cbn [trace].
  rewrite extractor_calls_extract, extractor_calls_query. reflexivity.
Qed.



(** X4: a call of [fix_training_code] that raises has made its one
    provider query and nothing else: the extractor was not called, the
    provider is in the state the query left it in, and the history is
    untouched. *)
Theorem fix_failure_effects training_code plan review_text problems
        (self : TrainingCodeGenerator (PState := PState)) (e : PyError E) :
  let q := fix_query config training_code plan review_text problems in
  let out := fix_training_code query extract_code config
                               training_code plan review_text problems self in
  out.1 = inl e ->
  out.2 = {| provider := (query (provider self) q).2;
             history := history self;
             trace := trace self ++ [ProviderQuery q] |}
  /\ extractor_calls (trace out.2) = extractor_calls (trace self).
Proof.
  cbv zeta. rewrite fix_training_code_run.
  destruct (query (provider self) _) as [[pe|text] p']; cbn [fst snd].
  { intros _. split; [reflexivity|]. apply extractor_calls_query. }
  destruct (Json.loads text) as [e'|decoded];
    [intros _; split; [reflexivity | apply extractor_calls_query]|].
  destruct (FixResponse.kwargs decoded) as [e'|data];
    [intros _; split; [reflexivity | apply extractor_calls_query]|].
  destruct (FixResponse.validate data) as [e'|response];
    [intros _; split; [reflexivity | apply extractor_calls_query]|].
  discriminate.
Qed.

End FixOutcomes.

(** ** Sessions *)

Section SessionProperties.

Context {PState E : Type}.
Variable query : PState -> Query -> (E + string) * PState.
Variable extract_code : string -> string.
Variable config : Config.

(** One call leaves the history alone and adds to the provider calls
    the query it builds from its arguments and the history, if any. *)
Lemma invoke_effects (c : Call) (self : TrainingCodeGenerator (PState := PState)) :
  history (invoke (E := E) query extract_code config c self).2 = history self
  /\ provider_calls (trace (invoke (E := E) query extract_code config c self).2)
     = provider_calls (trace self) ++ option_list (query_of config (history self) c).
Proof.
  destruct c; cbn [invoke query_of option_list].
  - unfold generate_training_code, bind, self_history, call_extract_code, log.
    cbn [fst snd]. rewrite self_provider_query_spec.
    destruct (query (provider self) _) as [[pe|text] p'];
      cbn [fst snd trace history]; (split; [reflexivity|]).
    + apply provider_calls_query.
    + rewrite provider_calls_extract. apply provider_calls_query.
  - split; [|apply fix_training_code_calls].
    rewrite fix_training_code_run. cbv zeta.
    destruct (query (provider self) _).1 as [pe|text]; [reflexivity|].
    destruct (Json.loads text) as [e|decoded]; [reflexivity|].
    destruct (FixResponse.kwargs decoded) as [e|data]; [reflexivity|].
    destruct (FixResponse.validate data) as [e|response]; reflexivity.
  - unfold review_training_code, bind, self_history. cbn [fst snd].
    rewrite self_provider_query_spec. cbn [fst snd trace history].
    split; [reflexivity | apply provider_calls_query].
  - split; [reflexivity | symmetry; apply app_nil_r].
  - split; [reflexivity | symmetry; apply app_nil_r].
  - split; [reflexivity | symmetry; apply app_nil_r].
Qed.

Lemma session_effects (calls : list Call) :
  forall self : TrainingCodeGenerator (PState := PState),
    history (session (E := E) query extract_code config calls self).2 = history self
    /\ provider_calls (trace (session (E := E) query extract_code config calls self).2)
       = provider_calls (trace self) ++ omap (query_of config (history self)) calls
    /\ length (session (E := E) query extract_code config calls self).1 = length calls.
Proof.
  induction calls as [|c calls IH]; intros self.
  - cbn [session fst snd omap]. rewrite app_nil_r. auto.
  - cbn [session].
    destruct (invoke_effects c self) as [Hh Hq].
    destruct (invoke query extract_code config c self) as [outcome self'].
    cbn [snd] in Hh, Hq.
    destruct (IH self') as (IHh & IHq & IHl).
    destruct (session query extract_code config calls self') as [outcomes self''].
    cbn [fst snd] in *. rewrite IHh, IHq, Hh, Hq.
    split; [reflexivity|]. split; [|cbn [length]; congruence].
    rewrite <- app_assoc. f_equal.
    change (c :: calls) with ([c] ++ calls). rewrite omap_app. reflexivity.
Qed.

(** X5: over any sequence of calls of the six public methods, made on
    one object whatever each call returns or raises, the history stays
    what it was at the start, and the provider receives, in order, one
    query per call of generate, fix or review and none for the test
    methods.  Each query is built from the arguments of its call and
    the initial history only: no answer of the provider and no earlier
    call has any influence on a later prompt. *)
Theorem session_queries (calls : list Call)
        (self : TrainingCodeGenerator (PState := PState)) :
  let out := session (E := E) query extract_code config calls self in
  history out.2 = history self
  /\ provider_calls (trace out.2)
     = provider_calls (trace self) ++ omap (query_of config (history self)) calls
  /\ length out.1 = length calls.
Proof. cbv zeta. apply session_effects. Qed.

(** X6: an object made by the constructor starts with an empty history,
    and since no method writes the history, it is empty after any
    sequence of calls; every prompt of the session is therefore built
    with the empty list as history. *)
Theorem fresh_generator_history_stays_empty (calls : list Call) (p : PState) :
  let out := session (E := E) query extract_code config calls (init p) in
  history out.2 = []
  /\ provider_calls (trace out.2) = omap (query_of config []) calls.
Proof.
  cbv zeta. destruct (session_effects calls (init p)) as (Hh & Hq & _). auto.
Qed.

End SessionProperties.

(** ** Prompt templates *)

Lemma str_app_assoc (a b c : string) : (a +:+ b) +:+ c = a +:+ (b +:+ c).
Proof. induction a as [|x a IH]; [reflexivity|]. rewrite !append_cons, IH. reflexivity. Qed.

Lemma str_app_nil_r (a : string) : a +:+ EmptyString = a.
Proof. induction a as [|x a IH]; [reflexivity|]. rewrite append_cons, IH. reflexivity. Qed.

Ltac snorm :=
  unfold str1;
  repeat first [rewrite str_app_assoc | rewrite append_cons | rewrite append_nil].

Module TemplateMachineFacts.
Import TemplateMachine.

(** The scan is the run of a machine that reads the template one
    character at a time. *)
Lemma scan_step m st c s :
  scan m st (String c s) = emit m st c +:+ scan m (next st c) s.
Proof.
  cbn [scan]. unfold emit, next.
  destruct st; destruct (Ascii.eqb c DOLLAR);
    try destruct (is_id_start c); try destruct (is_id_char c);
    try destruct (Ascii.eqb c "{"); try destruct (Ascii.eqb c "}");
    snorm; reflexivity.
Qed.

Lemma scan_app m a : forall st b,
  scan m st (a +:+ b) = emitted m st a +:+ scan m (state_after st a) b.
Proof.
  induction a as [|c a IH]; intros st b; [reflexivity|].
  rewrite append_cons, scan_step, IH. cbn [emitted state_after].
  rewrite str_app_assoc. reflexivity.
Qed.

Lemma scan_emitted m st a :
  scan m st a = emitted m st a +:+ flush m (state_after st a).
Proof.
  rewrite <- (str_app_nil_r a) at 1. rewrite scan_app. reflexivity.
Qed.

Lemma safe_substitute_app m a b :
  ends_plain a = true ->
  safe_substitute (a +:+ b) m = safe_substitute a m +:+ safe_substitute b m.
Proof.
  unfold ends_plain, safe_substitute. intros H.
  rewrite scan_app, (scan_emitted m Plain a).
  destruct (state_after Plain a); try discriminate.
  cbn [flush]. rewrite str_app_nil_r. reflexivity.
Qed.

Lemma scan_braced_tail m k : forall id rest,
  all_id_chars k = true ->
  scan m (Braced id) (k +:+ String "}" rest) = braced m (id +:+ k) +:+ scan m Plain rest.
Proof.
  induction k as [|c k IH]; intros id rest Hk.
  - rewrite append_nil, str_app_nil_r. cbn [scan]. reflexivity.
  - cbn [all_id_chars] in Hk. apply andb_prop in Hk as [Hc Hk].
    rewrite append_cons. cbn [scan]. rewrite Hc, IH by exact Hk.
    snorm. reflexivity.
Qed.

Lemma scan_open_brace m s : scan m Plain (String "$" (String "{" s)) = scan m OpenBrace s.
Proof. reflexivity. Qed.

(** A braced placeholder in plain position is replaced as a whole: by
    [str] of its value when the mapping has the key, by itself when
    not.  The text put in its place is not scanned. *)
Lemma safe_substitute_braced m a k b :
  ends_plain a = true -> is_identifier k = true ->
  safe_substitute (a +:+ "${" +:+ k +:+ "}" +:+ b) m
  = safe_substitute a m +:+ braced m k +:+ safe_substitute b m.
Proof.
  intros Ha Hk. rewrite (safe_substitute_app _ _ _ Ha). f_equal.
  destruct k as [|c k]; [discriminate|]. cbn [is_identifier] in Hk.
  apply andb_prop in Hk as [Hc Hk]. unfold safe_substitute.
  snorm. rewrite scan_open_brace. cbn [scan]. rewrite Hc.
  apply (scan_braced_tail m k (String c EmptyString) b Hk).
Qed.

Lemma has_escape_cons c s :
  has_escape (String c s) = false ->
  has_escape s = false
  /\ (Ascii.eqb c DOLLAR = true -> starts_with_delimiter s = false).
Proof.
  cbn [has_escape]. destruct s as [|d s]; [auto|].
  intros H. apply orb_false_elim in H as [H1 H2]. split; [exact H2|].
  intros Hc. rewrite Hc in H1. exact H1.
Qed.

Lemma named_empty id : named ∅ id = String DOLLAR id.
Proof. unfold named. rewrite lookup_empty. reflexivity. Qed.

Lemma braced_empty id : braced ∅ id = "${" +:+ id +:+ "}".
Proof. unfold braced. rewrite lookup_empty. reflexivity. Qed.

(** Without a mapping, and without two delimiters in a row, the scan
    gives back what it reads. *)
Lemma scan_empty_mapping s : forall st,
  has_escape s = false ->
  (st = Delim -> starts_with_delimiter s = false) ->
  scan ∅ st s = pending st +:+ s.
Proof.
  induction s as [|c s IH]; intros st Hs Hd.
  - destruct st; cbn [scan flush pending]; rewrite ?named_empty, ?str_app_nil_r;
      reflexivity.
  - apply has_escape_cons in Hs as [Hs Hc].
    assert (Hplain : (if Ascii.eqb c DOLLAR then scan ∅ Delim s
                      else String c (scan ∅ Plain s)) = String c s).
    { destruct (Ascii.eqb c DOLLAR) eqn:E.
      - apply Ascii.eqb_eq in E. subst c. rewrite IH by auto. reflexivity.
      - rewrite IH by (auto; discriminate). reflexivity. }
    cbn [scan]. rewrite Hplain.
    destruct st; cbn [pending].
    + reflexivity.
    + cbn [starts_with_delimiter] in Hd. rewrite (Hd eq_refl).
      destruct (is_id_start c).
      { rewrite IH by (auto; discriminate). cbn [pending]. snorm. reflexivity. }
      destruct (Ascii.eqb c "{") eqn:E; [|reflexivity].
      apply Ascii.eqb_eq in E. subst c.
      rewrite IH by (auto; discriminate). reflexivity.
    + destruct (is_id_char c).
      * rewrite IH by (auto; discriminate). cbn [pending]. snorm. reflexivity.
      * rewrite named_empty. reflexivity.
    + destruct (is_id_start c); [|reflexivity].
      rewrite IH by (auto; discriminate). cbn [pending]. snorm. reflexivity.
    + destruct (is_id_char c).
      { rewrite IH by (auto; discriminate). cbn [pending]. snorm. reflexivity. }
      destruct (Ascii.eqb c "}") eqn:E.
      * apply Ascii.eqb_eq in E. subst c. rewrite braced_empty.
        rewrite IH by (auto; discriminate). cbn [pending]. snorm. reflexivity.
      * snorm. reflexivity.
Qed.

End TemplateMachineFacts.

Section PromptProperties.

Variable config : Config.

(** X7: the system message of every query is the base template as it
    is written, placeholders included, provided the template holds no
    two delimiters in a row (the one thing [safe_substitute] rewrites
    when it is called without arguments). *)
Theorem system_message_is_base_template
        (h : History) (training_code problem_statement plan review_text : string)
        (problems : option string) :
  TemplateMachine.has_escape (prompt_training_base (code_generation config)) = false ->
  system_message (generate_query config h problem_statement plan)
    = prompt_training_base (code_generation config)
  /\ system_message (fix_query config training_code plan review_text problems)
     = prompt_training_base (code_generation config)
  /\ system_message (review_query config h training_code problem_statement plan problems)
     = prompt_training_base (code_generation config).
Proof.
  intros H. cbn [system_message generate_query fix_query review_query].
  unfold base_prompt, safe_substitute.
  rewrite TemplateMachineFacts.scan_empty_mapping by (auto; discriminate).
  auto.
Qed.

(** X8: the texts handed to the methods enter the prompt as they are.
    Where the generate template has the placeholder for the problem
    statement, the user message has the problem statement, whatever
    delimiters or placeholders it contains; likewise for the training
    code in the fix template.  A placeholder for the history in the
    fix template is left as written, as fix binds no history. *)
Theorem prompt_values_are_inserted_verbatim
        (h : History) (training_code problem_statement plan review_text : string)
        (problems : option string) (before after : string) :
  TemplateMachine.ends_plain before = true ->
  (prompt_training_generate (code_generation config)
     = before +:+ "${problem_statement}" +:+ after ->
   user_message (generate_query config h problem_statement plan)
     = safe_substitute before (generate_mapping config h problem_statement plan)
       +:+ problem_statement
       +:+ safe_substitute after (generate_mapping config h problem_statement plan))
  /\ (prompt_training_fix (code_generation config)
        = before +:+ "${training_code}" +:+ after ->
      user_message (fix_query config training_code plan review_text problems)
        = safe_substitute before (fix_mapping config training_code plan review_text problems)
          +:+ training_code
          +:+ safe_substitute after
                (fix_mapping config training_code plan review_text problems))
  /\ (prompt_training_fix (code_generation config)
        = before +:+ "${history}" +:+ after ->
      user_message (fix_query config training_code plan review_text problems)
        = safe_substitute before (fix_mapping config training_code plan review_text problems)
          +:+ "${history}"
          +:+ safe_substitute after
                (fix_mapping config training_code plan review_text problems)).
Proof.
  intros Hb. repeat split; intros Ht;
    cbn [user_message generate_query fix_query]; rewrite Ht.
  - change (before +:+ "${problem_statement}" +:+ after)
      with (before +:+ "${" +:+ "problem_statement" +:+ "}" +:+ after).
    rewrite (TemplateMachineFacts.safe_substitute_braced _ before "problem_statement" after Hb eq_refl).
    reflexivity.
  - change (before +:+ "${training_code}" +:+ after)
      with (before +:+ "${" +:+ "training_code" +:+ "}" +:+ after).
    rewrite (TemplateMachineFacts.safe_substitute_braced _ before "training_code" after Hb eq_refl).
    reflexivity.
  - change (before +:+ "${history}" +:+ after)
      with (before +:+ "${" +:+ "history" +:+ "}" +:+ after).
    rewrite (TemplateMachineFacts.safe_substitute_braced _ before "history" after Hb eq_refl).
    reflexivity.
Qed.

End PromptProperties.

(** ** The shape of an accepted response *)

Module JsonShapeFacts.
Import Json.

Lemma scan_atom_not_object s v r : scan_atom s = Ok v r -> is_object v = false.
Proof.
  unfold scan_atom.
  destruct (strip_prefix "null" s); [intros [= <- _]; reflexivity|].
  destruct (strip_prefix "true" s); [intros [= <- _]; reflexivity|].
  destruct (strip_prefix "false" s); [intros [= <- _]; reflexivity|].
  destruct (match_number s) as [[lexeme r']|]; [intros [= <- _]; reflexivity|].
  destruct (strip_prefix "NaN" s); [intros [= <- _]; reflexivity|].
  destruct (strip_prefix "Infinity" s); [intros [= <- _]; reflexivity|].
  destruct (strip_prefix "-Infinity" s); [intros [= <- _]; reflexivity|].
  discriminate.
Qed.

Lemma array_items_not_object fuel : forall s acc v r,
  array_items fuel s acc = Ok v r -> is_object v = false.
Proof.
  induction fuel as [|fuel IH]; intros s acc v r; [discriminate|].
  cbn [array_items]. destruct (scan_once fuel s) as [x r1| |]; try discriminate.
  destruct (skip_ws r1) as [|d r2]; [discriminate|].
  destruct (Ascii.eqb d "]"); [intros [= <- _]; reflexivity|].
  destruct (Ascii.eqb d ","); [apply IH | discriminate].
Qed.

(** Only a text that starts with an opening brace scans to an object. *)
Lemma scan_once_object fuel s v r :
  scan_once fuel s = Ok v r -> is_object v = true -> exists s', s = String "{" s'.
Proof.
  destruct fuel as [|fuel]; [discriminate|]. destruct s as [|c s]; [discriminate|].
  cbn [scan_once]. destruct (Ascii.eqb c DQUOTE).
  { destruct (scanstring s); try discriminate. intros [= <- _]. discriminate. }
  destruct (Ascii.eqb c "{") eqn:E.
  { apply Ascii.eqb_eq in E. subst c. eauto. }
  destruct (Ascii.eqb c "[").
  { destruct (skip_ws s) as [|d s2]; [discriminate|].
    destruct (Ascii.eqb d "]"); [intros [= <- _]; discriminate|].
    intros H Hv. rewrite (array_items_not_object _ _ _ _ _ H) in Hv. discriminate. }
  intros H Hv. rewrite (scan_atom_not_object _ _ _ H) in Hv. discriminate.
Qed.

Lemma loads_object {E : Type} (text : string) members :
  loads (E := E) text = inr (JObject members) ->
  exists rest, skip_ws text = String "{" rest.
Proof.
  unfold loads.
  destruct (scan_once _ (skip_ws text)) as [v r| |] eqn:H; try discriminate.
  destruct (is_empty _); [|discriminate]. intros [= ->].
  eapply scan_once_object; [exact H | reflexivity].
Qed.

End JsonShapeFacts.

Module DictFacts.
Import Json FixResponse.

Lemma foldl_insert_other (members : list (string * JSON)) :
  forall (m : gmap string JSON) (k : string),
    k ∉ members.*1 ->
    foldl (fun (m : gmap string JSON) (kv : string * JSON) => <[kv.1 := kv.2]> m)
          m members !! k = m !! k.
Proof.
  induction members as [|[k' v] members IH]; intros m k Hk; [reflexivity|].
  cbn [foldl fst snd]. rewrite fmap_cons in Hk. cbn [fst] in Hk.
  apply not_elem_of_cons in Hk as [Hne Hk]. rewrite IH by exact Hk.
  apply lookup_insert_ne. congruence.
Qed.

(** Of the members with the same name, the last one stays. *)
Lemma dict_last before k v after :
  k ∉ after.*1 -> dict (before ++ (k, v) :: after) !! k = Some v.
Proof.
  intros Hk. unfold dict. rewrite foldl_app. cbn [foldl fst snd].
  rewrite foldl_insert_other by exact Hk. apply lookup_insert_eq.
Qed.

End DictFacts.

Section ResponseShape.

Context {PState E : Type}.
Variable query : PState -> Query -> (E + string) * PState.
Variable extract_code : string -> string.
Variable config : Config.

(** X9: [fix_training_code] returns a value only when the first
    character of the provider's answer that is not white space (space,
    TAB, LF, CR) is an opening brace: an answer that wraps the object
    in a code fence or puts any words before it makes the call raise. *)
Theorem fix_requires_bare_object training_code plan review_text problems
        (self : TrainingCodeGenerator (PState := PState)) (r : string) :
  (fix_training_code query extract_code config
                     training_code plan review_text problems self).1 = inr r ->
  exists text rest,
    (query (provider self)
           (fix_query config training_code plan review_text problems)).1 = inr text
    /\ Json.skip_ws text = String "{" rest.
Proof.
  rewrite fix_training_code_run. cbv zeta.
  destruct (query (provider self) _).1 as [pe|text]; [discriminate|].
  destruct (Json.loads text) as [e|decoded] eqn:Hl; [discriminate|].
  destruct (FixResponse.kwargs decoded) as [e|data] eqn:Hk; [discriminate|].
  intros _. apply ValidationFacts.kwargs_inr in Hk as (members & -> & _).
  destruct (JsonShapeFacts.loads_object _ _ Hl) as [rest Hrest]. eauto.
Qed.


End ResponseShape.

(** ** Required fields *)

Section RequiredFields.

Context {PState E : Type}.
Variable query : PState -> Query -> (E + string) * PState.
Variable extract_code : string -> string.
Variable config : Config.


End RequiredFields.

(** ** Witnesses *)

Module ExtraWitnesses.
Import Sample Sample2.

Lemma fix_success_only_if_witness :
  (run_fix [minimal_response]).1 = inr "x=1"
  /\ exists text members p c,
       (scripted [minimal_response]
                 (fix_query Sample.config "x=" "p" "assign 1" None)).1 = inr text
       /\ Json.loads (E := unit) text = inr (Json.JObject members)
       /\ FixResponse.dict members !! "plan" = Some (Json.JString p)
       /\ FixResponse.dict members !! "code" = Some (Json.JString c)
       /\ "x=1" = Extractor.extract Extractor.ReturnEmpty c
       /\ extractor_calls (trace (run_fix [minimal_response]).2)
          = extractor_calls (trace (generator [minimal_response])) ++ [c].
Proof.
  split; [reflexivity|].
  apply (fix_success_only_if scripted (Extractor.extract Extractor.ReturnEmpty)
           Sample.config "x=" "p" "assign 1" None (generator [minimal_response]) "x=1").
  reflexivity.
Defined.



Lemma fix_failure_effects_witness :
  (run_fix ["{not json"]).1 = inl JSONDecodeError
  /\ (run_fix ["{not json"]).2
     = {| provider := [];
          history := history (generator ["{not json"]);
          trace := [ProviderQuery (fix_query Sample.config "x=" "p" "assign 1" None)] |}
  /\ extractor_calls (trace (run_fix ["{not json"]).2) = [].
Proof.
  split; [reflexivity|].
  apply (fix_failure_effects scripted (Extractor.extract Extractor.ReturnEmpty)
           Sample.config "x=" "p" "assign 1" None (generator ["{not json"])
           JSONDecodeError).
  reflexivity.
Defined.

Lemma system_message_is_base_template_witness :
  TemplateMachine.has_escape (prompt_training_base (code_generation (braced_config "history")))
    = false
  /\ system_message (generate_query (braced_config "history") [] "fit" "p")
     = "Base: $role, ${style}."
  /\ system_message (fix_query (braced_config "history") "x=" "p" "r" None)
     = "Base: $role, ${style}."
  /\ system_message (review_query (braced_config "history") [] "x=" "fit" "p" None)
     = "Base: $role, ${style}.".
Proof.
  split; [reflexivity|].
  apply (system_message_is_base_template (braced_config "history")
           [] "x=" "fit" "p" "r" None).
  reflexivity.
Defined.

Lemma prompt_values_are_inserted_verbatim_witness :
  user_message (generate_query (braced_config "training_code") [] "cost in $plan" "p")
    = "Input: cost in $plan End"
  /\ user_message (fix_query (braced_config "training_code") "x=${plan}" "p" "r" None)
     = "Input: x=${plan} End"
  /\ user_message (fix_query (braced_config "history") "x=1" "p" "r" None)
     = "Input: ${history} End".
Proof.
  pose proof (prompt_values_are_inserted_verbatim (braced_config "training_code")
                [] "x=${plan}" "cost in $plan" "p" "r" None "Input: " " End" eq_refl)
    as (Hgen & Hfix & _).
  pose proof (prompt_values_are_inserted_verbatim (braced_config "history")
                [] "x=1" "cost in $plan" "p" "r" None "Input: " " End" eq_refl)
    as (_ & _ & Hhist).
  split; [exact (Hgen eq_refl)|]. split; [exact (Hfix eq_refl) | exact (Hhist eq_refl)].
Defined.

Lemma fix_requires_bare_object_witness :
  (run_fix [" " +:+ minimal_response]).1 = inr "x=1"
  /\ exists text rest,
       (scripted [" " +:+ minimal_response]
                 (fix_query Sample.config "x=" "p" "assign 1" None)).1 = inr text
       /\ Json.skip_ws text = String "{" rest.
Proof.
  split; [reflexivity|].
  apply (fix_requires_bare_object scripted (Extractor.extract Extractor.ReturnEmpty)
           Sample.config "x=" "p" "assign 1" None
           (generator [" " +:+ minimal_response]) "x=1").
  reflexivity.
Defined.



End ExtraWitnesses.

(** ** A sample session *)

Module ExtraExamples.
Import Sample Sample2.

(** Four calls on a fresh object: the provider sees three queries, each
    built with the empty history, whatever it answered before. *)
Example session_on_fresh_object :
  let out := session scripted (Extractor.extract Extractor.ReturnEmpty) Sample.config
                     calls (init [fenced_code; "not json"]) in
  out.1 = [ inr "x=1";
            inl (NotImplementedError
                   "Generation of the training tests is not yet implemented.");
            inl JSONDecodeError;
            inl (ProviderError tt) ]
  /\ map user_message (provider_calls (trace out.2))
     = [ "Problem: fit a line Plan: p History: [] "
         +:+ "Packages: ['numpy', 'pandas'] Data: /data/train.csv";
         "Plan: p Code: x=1 Review: wrong Problems: None History: $history";
         "Code: x=1 Problems: NameError History: []" ]
  /\ history out.2 = [].
Proof. repeat split. Qed.

Example base_template_escape :
  safe_substitute "Cost in $$, see $plan" ∅ = "Cost in $, see $plan".
Proof. reflexivity. Qed.

End ExtraExamples.
